(** * Product Store Service: the request router of [service/routes.py]

    A shallow embedding of the Flask handlers of [service/routes.py] and the
    properties of the service's specification that concern them.

    The handlers are effectful Python: they read the ambient request, call
    the logger, call the [Product] data-access class, and leave either by
    [return], by [abort] (an HTTP error response) or by an exception nobody
    catches.  They are embedded in a small monad [M] that threads the data
    store, records the effects performed in order, and carries the three
    ways of leaving a handler.

    The router imports [Product] and [Category] from [service/models.py] and
    the status constants from [service/common/status.py].  The enumeration
    [Category] is a parameter of the development; the [Product] class and the
    status constants are modelled from the specification, each under a comment
    that says so.  Python's [str.upper] and the text Flask puts in its own
    400 answer are parameters too (see [Runtime]). *)

From Stdlib Require Import ZArith List String Ascii Bool Lia DecimalString.
Import ListNotations.

#[local] Set Warnings "-register-all".

Open Scope list_scope.
Open Scope string_scope.
Open Scope Z_scope.

(* ================================================================== *)
(** * Python values *)
(* ================================================================== *)

(** Python's [decimal.Decimal]: the number [coefficient * 10 ^ exponent]. *)
Record Decimal := mkDecimal { coefficient : Z; exponent : Z }.

(** The Python values that travel through the router: what [request.get_json()]
    yields, what [serialize()] builds, what is handed to the logger.
    [JNull] is [None]; a [JDict] lists its items in insertion order. *)
Inductive Json :=
| JNull
| JBool (b : bool)
| JInt (n : Z)
| JDec (d : Decimal)
| JStr (s : string)
| JList (items : list Json)
| JDict (items : list (string * Json)).

(** [str(n)] for a Python [int], as f-strings format it. *)
Definition str_of_int (n : Z) : string := NilZero.string_of_int (Z.to_int n).

(** [c.upper()] on one ASCII character. *)
Definition ascii_upper (c : ascii) : ascii :=
  let n := N_of_ascii c in
  if ((97 <=? n) && (n <=? 122))%N then ascii_of_N (n - 32) else c.

(** [s.upper()] for a string of ASCII characters. *)
Fixpoint ascii_str_upper (s : string) : string :=
  match s with
  | EmptyString => EmptyString
  | String c rest => String (ascii_upper c) (ascii_str_upper rest)
  end.

(** What the router uses of Python and Flask without defining it:
    [str.upper], which maps a string of any script to its upper-case form
    (and may change its length), and the description of the 400 answer with
    which [request.get_json()] meets a body that is not JSON text.  Both are
    parameters: nothing is assumed of them. *)
Class Runtime := {
  str_upper : string -> string;
  bad_request_description : string
}.

(** [bool(s)] for a [str]: true exactly when the string is not empty. *)
Definition bool_of_str (s : string) : bool := negb (String.eqb s "").

(** The test [if x:] on a value that is a [str] or [None]: [Some s] when the
    branch is taken (and [x] is the string [s]), [None] when it is not. *)
Definition truthy (x : option string) : option string :=
  match x with
  | Some s => if bool_of_str s then Some s else None
  | None => None
  end.

(** First value bound to [key] in an ordered multi-mapping. *)
Fixpoint assoc {A : Type} (key : string) (items : list (string * A)) : option A :=
  match items with
  | [] => None
  | (k, v) :: rest => if String.eqb k key then Some v else assoc key rest
  end.

(** [d[key]] on a Python [dict] built from [items]: a later item with the
    same key has replaced an earlier one. *)
Definition dict_get (key : string) (items : list (string * Json)) : option Json :=
  assoc key (rev items).

(** Equality of two values that are a [str] or [None] can be decided. *)
Definition option_string_dec (x y : option string) : {x = y} + {x <> y}.
Proof. decide equality. apply string_dec. Defined.

(** [needle in hay] for strings. *)
Definition contains (needle hay : string) : Prop :=
  exists before after, hay = before ++ needle ++ after.

(* ================================================================== *)
(** * The Category enumeration *)
(* ================================================================== *)

(** [service.models.Category] is an [Enum]; the router only looks members up
    by name and hands them on, so the enumeration is a parameter: a type of
    members with decidable identity, the members in definition order, and
    the [.name] of each. *)
Class CategoryEnum := {
  Category : Type;
  Category_eq_dec : forall a b : Category, {a = b} + {a <> b};
  Category_members : list Category;
  Category_name : Category -> string
}.

(* ================================================================== *)
(** * Exceptions, effects and the handler monad *)
(* ================================================================== *)

(** Exceptions that no handler catches. *)
Inductive Exception :=
| AttributeError (attribute : string)
| DataValidationError.

(** The ways of leaving a handler: [return], [abort(code, description)]
    (werkzeug's [HTTPException], answered with that status), or an exception
    that escapes the router. *)
Inductive Outcome (A : Type) :=
| Returned (a : A)
| Aborted (code : Z) (description : string)
| Raised (e : Exception).

Arguments Returned {A} a.
Arguments Aborted {A} code description.
Arguments Raised {A} e.

Inductive Level := INFO | ERROR.

(** Calls into the data-access layer. *)
Inductive DbCall :=
| CallAll
| CallFind (product_id : Z)
| CallFindByName (name : string)
| CallFindByCategory (category_name : string)
| CallFindByAvailability (available : bool)
| CallCreate
| CallUpdate
| CallDelete.

(** The effects a handler performs, in the order it performs them:
    [app.logger] calls (format string and arguments, as passed),
    [request.get_json()], and data-access calls. *)
Inductive Event :=
| EvLog (level : Level) (format : string) (args : list Json)
| EvGetJson
| EvDb (call : DbCall).

Definition is_log (e : Event) : bool :=
  match e with EvLog _ _ _ => true | _ => false end.

Section Router.

Context {R : Runtime} {E : CategoryEnum}.

(* ================================================================== *)
(** * The Product model and its table *)
(* ================================================================== *)

(** Modelled from the spec: the [Product] class of [service/models.py], a
    Python object with the attributes of the data model (id, name,
    description, price, available, category).  An attribute that has not
    been set is [None]. *)
Record Product := mkProduct {
  id : option Z;
  name : option string;
  description : option string;
  price : option Decimal;
  available : option bool;
  category : option Category
}.

(** Modelled from the spec: the constructor [Product()], a fresh object none
    of whose attributes is set. *)
Definition Product_new : Product :=
  mkProduct None None None None None None.

(** [p.id = i]. *)
Definition set_id (p : Product) (i : option Z) : Product :=
  mkProduct i (name p) (description p) (price p) (available p) (category p).

(** Modelled from the spec: the relational table behind [Product].  Rows
    are kept in insertion order (the order the store returns them in) and
    [next_id] is the id the store assigns to the next row created. *)
Record Store := mkStore { rows : list Product; next_id : Z }.

(** One run of a handler: how it left, the store it left behind, and the
    effects it performed. *)
Record Run (A : Type) := mkRun {
  outcome : Outcome A;
  store : Store;
  events : list Event
}.

Arguments mkRun {A} outcome store events.
Arguments outcome {A} r.
Arguments store {A} r.
Arguments events {A} r.

(** A handler, or a step of one: a function of the store it starts from. *)
Definition M (A : Type) : Type := Store -> Run A.

Definition ret {A : Type} (a : A) : M A :=
  fun db => mkRun (Returned a) db [].

(** Sequencing: the second step runs only if the first returned, from the
    store the first left; an abort or an exception ends the run where it
    happened, with the store and the effects so far. *)
Definition bind {A B : Type} (m : M A) (k : A -> M B) : M B :=
  fun db =>
    let r := m db in
    match outcome r with
    | Returned a =>
        let r' := k a (store r) in
        mkRun (outcome r') (store r') (events r ++ events r')
    | Aborted code description => mkRun (Aborted code description) (store r) (events r)
    | Raised e => mkRun (Raised e) (store r) (events r)
    end.

(** [abort(code, description)]. *)
Definition abort {A : Type} (code : Z) (description : string) : M A :=
  fun db => mkRun (Aborted code description) db [].

(** [raise e]. *)
Definition raise {A : Type} (e : Exception) : M A :=
  fun db => mkRun (Raised e) db [].

(** Performs one effect. *)
Definition emit (e : Event) : M unit :=
  fun db => mkRun (Returned tt) db [e].

(** [app.logger.info(format, *args)] and [app.logger.error(format, *args)]. *)
Definition logger_info (format : string) (args : list Json) : M unit :=
  emit (EvLog INFO format args).

Definition logger_error (format : string) (args : list Json) : M unit :=
  emit (EvLog ERROR format args).

(** A pure computation that may raise, run inside a handler. *)
Definition lift {A : Type} (r : Exception + A) : M A :=
  match r with
  | inl e => raise e
  | inr a => ret a
  end.

Notation "x <- m ;; k" := (bind m (fun x => k))
  (at level 61, m at next level, right associativity).
Notation "m ;; k" := (bind m (fun _ => k))
  (at level 61, right associativity).

(* ------------------------------------------------------------------ *)
(** ** Serialization *)

(** [getattr(Category, attribute)]: the member of that exact name, or
    [AttributeError].  (An [Enum] class has other attributes besides its
    members, none of them spelled without a lower-case letter, so none of
    them is reachable from an upper-cased name.) *)
Definition getattr_Category (attribute : string) : Exception + Category :=
  match find (fun c => String.eqb (Category_name c) attribute) Category_members with
  | Some c => inr c
  | None => inl (AttributeError attribute)
  end.

(** An attribute as a Python value: [None] when it is not set. *)
Definition to_json {A : Type} (f : A -> Json) (x : option A) : Json :=
  match x with
  | Some a => f a
  | None => JNull
  end.

(** Modelled from the spec: [Product.serialize()], the JSON shape
    [{id, name, description, price, available, category}] with the category
    given by its name. *)
Definition serialize (self : Product) : Json :=
  JDict [ ("id", to_json JInt (id self));
          ("name", to_json JStr (name self));
          ("description", to_json JStr (description self));
          ("price", to_json JDec (price self));
          ("available", to_json JBool (available self));
          ("category", to_json (fun c => JStr (Category_name c)) (category self)) ].

(** Sequencing of pure computations that may raise. *)
Definition and_then {A B : Type} (r : Exception + A) (k : A -> Exception + B) : Exception + B :=
  match r with
  | inl e => inl e
  | inr a => k a
  end.

(** [data[key]] on a request body. *)
Definition item (key : string) (data : Json) : Exception + Json :=
  match data with
  | JDict items =>
      match dict_get key items with
      | Some v => inr v
      | None => inl DataValidationError
      end
  | _ => inl DataValidationError
  end.

(** The value of an item, checked to be of the type the data model gives
    the attribute. *)
Definition as_str (v : Json) : Exception + string :=
  match v with
  | JStr s => inr s
  | _ => inl DataValidationError
  end.

Definition as_bool (v : Json) : Exception + bool :=
  match v with
  | JBool b => inr b
  | _ => inl DataValidationError
  end.

(** A JSON number, read as a non-negative decimal price. *)
Definition as_price (v : Json) : Exception + Decimal :=
  match v with
  | JInt n =>
      if (0 <=? n)%Z then inr (mkDecimal n 0)
      else inl DataValidationError
  | JDec d =>
      if (0 <=? coefficient d)%Z then inr d
      else inl DataValidationError
  | _ => inl DataValidationError
  end.

(** The name of a member of Category, spelled exactly. *)
Definition as_category (v : Json) : Exception + Category :=
  and_then (as_str v) (fun s =>
  match getattr_Category s with
  | inr c => inr c
  | inl _ => inl DataValidationError
  end).

(** The id a body gives the object: the body's [id] item when it is an
    integer, the object's own id otherwise. *)
Definition id_from_body (self : Product) (data : Json) : option Z :=
  match data with
  | JDict items =>
      match dict_get "id" items with
      | Some (JInt i) => Some i
      | _ => id self
      end
  | _ => id self
  end.

(** Modelled from the spec: [Product.deserialize(data)], which writes the
    values of the body (a JSON object of the shape [serialize] produces)
    onto [self]: every mutable attribute, and the id too when the body
    carries one, which is the client override that [update_product] undoes
    by forcing the id back.  It rejects a body that does not have that
    shape, names no Category member, or carries a negative price, so that
    every persisted product has a valid category and a non-negative price. *)
Definition deserialize (self : Product) (data : Json) : Exception + Product :=
  and_then (and_then (item "name" data) as_str) (fun n =>
  and_then (and_then (item "description" data) as_str) (fun d =>
  and_then (and_then (item "price" data) as_price) (fun p =>
  and_then (and_then (item "available" data) as_bool) (fun a =>
  and_then (and_then (item "category" data) as_category) (fun c =>
  inr (mkProduct (id_from_body self data) (Some n) (Some d) (Some p) (Some a) (Some c))))))).

(** The five attributes of [p] that a body can set are the values of
    [data]'s items. *)
Definition describes (data : Json) (p : Product) : Prop :=
  exists n d pr a c,
    and_then (item "name" data) as_str = inr n /\
    and_then (item "description" data) as_str = inr d /\
    and_then (item "price" data) as_price = inr pr /\
    and_then (item "available" data) as_bool = inr a /\
    and_then (item "category" data) as_category = inr c /\
    name p = Some n /\ description p = Some d /\ price p = Some pr /\
    available p = Some a /\ category p = Some c.

(* ------------------------------------------------------------------ *)
(** ** Data access *)

(** The conditions of the queries. *)
Definition has_id (product_id : Z) (p : Product) : bool :=
  match id p with
  | Some i => (i =? product_id)%Z
  | None => false
  end.

(** [row] is the row of the object [p]: the one of [p]'s id. *)
Definition same_row (p row : Product) : bool :=
  match id p with
  | Some i => has_id i row
  | None => false
  end.

Definition has_name (n : string) (p : Product) : bool :=
  match name p with
  | Some s => String.eqb s n
  | None => false
  end.

Definition has_category (c : Category) (p : Product) : bool :=
  match category p with
  | Some c' => if Category_eq_dec c' c then true else false
  | None => false
  end.

Definition has_availability (b : bool) (p : Product) : bool :=
  match available p with
  | Some a => Bool.eqb a b
  | None => false
  end.

(** A data-access call that reads the store. *)
Definition query {A : Type} (call : DbCall) (result : Store -> A) : M A :=
  fun db => mkRun (Returned (result db)) db [EvDb call].

(** Modelled from the spec: [Product.all()], every product in the store's
    order. *)
Definition Product_all : M (list Product) :=
  query CallAll rows.

(** Modelled from the spec: [Product.find(product_id)], the product of that
    id, or [None]. *)
Definition Product_find (product_id : Z) : M (option Product) :=
  query (CallFind product_id) (fun db => find (has_id product_id) (rows db)).

(** Modelled from the spec: [Product.find_by_name(name)], the products whose
    name equals [name], in the store's order. *)
Definition Product_find_by_name (n : string) : M (list Product) :=
  query (CallFindByName n) (fun db => filter (has_name n) (rows db)).

(** Modelled from the spec: [Product.find_by_category(category)]. *)
Definition Product_find_by_category (c : Category) : M (list Product) :=
  query (CallFindByCategory (Category_name c)) (fun db => filter (has_category c) (rows db)).

(** Modelled from the spec: [Product.find_by_availability(available)]. *)
Definition Product_find_by_availability (b : bool) : M (list Product) :=
  query (CallFindByAvailability b) (fun db => filter (has_availability b) (rows db)).

(** Modelled from the spec: [product.create()], which persists the product
    under an id the store assigns and sets that id on the object (here: the
    object is returned).  As for [update] and [delete] below, this is the
    call that succeeds; a persistence failure, which no handler catches, is
    not modelled, and no statement below says that such a call cannot
    fail. *)
Definition create (self : Product) : M Product :=
  fun db =>
    let created := set_id self (Some (next_id db)) in
    mkRun (Returned created)
          (mkStore (rows db ++ [created]) (next_id db + 1))
          [EvDb CallCreate].

(** Modelled from the spec: [product.update()], which persists the
    attributes of the object in the row of the object's id. *)
Definition update (self : Product) : M unit :=
  fun db =>
    mkRun (Returned tt)
          (mkStore (map (fun row => if same_row self row then self else row) (rows db))
                   (next_id db))
          [EvDb CallUpdate].

(** Modelled from the spec: [product.delete()], which removes the row of
    the object's id. *)
Definition delete (self : Product) : M unit :=
  fun db =>
    mkRun (Returned tt)
          (mkStore (filter (fun row => negb (same_row self row)) (rows db)) (next_id db))
          [EvDb CallDelete].

(* ================================================================== *)
(** * Requests and responses *)
(* ================================================================== *)

(** Flask's ambient [request], made an argument of every handler: the
    headers (under their canonical names), the query arguments in the order
    of the query string, and the body as [get_json()] decodes it ([None]
    when the body is not JSON text). *)
Record Request := mkRequest {
  headers : list (string * string);
  args : list (string * string);
  json : option Json
}.

(** [request.args.get(key)]: the first value of [key], or [None]. *)
Definition args_get (request : Request) (key : string) : option string :=
  assoc key (args request).

(** Modelled from the spec: the constants of [service/common/status.py]. *)
Definition HTTP_200_OK : Z := 200.
Definition HTTP_201_CREATED : Z := 201.
Definition HTTP_204_NO_CONTENT : Z := 204.
Definition HTTP_400_BAD_REQUEST : Z := 400.
Definition HTTP_404_NOT_FOUND : Z := 404.
Definition HTTP_415_UNSUPPORTED_MEDIA_TYPE : Z := 415.

(** [request.get_json()]: decodes the body; a body that is not JSON text is
    answered by the framework with 400. *)
Definition get_json (request : Request) : M Json :=
  emit EvGetJson ;;
  match json request with
  | Some data => ret data
  | None => abort HTTP_400_BAD_REQUEST bad_request_description
  end.

(** What a view function returns: a JSON document or a text. *)
Inductive Body :=
| BodyJson (value : Json)
| BodyText (text : string).

(** The tuple a view function returns: body, status, headers. *)
Definition Response : Type := Body * Z * list (string * string).

Definition jsonify (value : Json) : Body := BodyJson value.

(* ================================================================== *)
(** * The handlers of [service/routes.py] *)
(* ================================================================== *)

(** [GET /health] *)
Definition healthcheck : M Response :=
  ret (jsonify (JDict [("status", JInt 200); ("message", JStr "OK")]), HTTP_200_OK, []).

(** Checks that the media type is correct. *)
Definition check_content_type (request : Request) (content_type : string) : M unit :=
  match assoc "Content-Type" (headers request) with
  | None =>
      logger_error "No Content-Type specified." [] ;;
      abort HTTP_415_UNSUPPORTED_MEDIA_TYPE ("Content-Type must be " ++ content_type)
  | Some value =>
      if String.eqb value content_type then ret tt
      else
        logger_error "Invalid Content-Type: %s" [JStr value] ;;
        abort HTTP_415_UNSUPPORTED_MEDIA_TYPE ("Content-Type must be " ++ content_type)
  end.

(** [POST /products] *)
Definition create_products (request : Request) : M Response :=
  logger_info "Request to Create a Product..." [] ;;
  check_content_type request "application/json" ;;
  data <- get_json request ;;
  logger_info "Processing: %s" [data] ;;
  let product := Product_new in
  product <- lift (deserialize product data) ;;
  product <- create product ;;
  logger_info "Product with new id [%s] saved!" [to_json JInt (id product)] ;;
  let message := serialize product in
  let location_url := "/" in
  ret (jsonify message, HTTP_201_CREATED, [("Location", location_url)]).

(** [GET /products] *)
Definition get_all_products (request : Request) : M Response :=
  let products : list Product := [] in
  let name_arg := args_get request "name" in
  let cat_arg := args_get request "category" in
  let avail_arg := args_get request "available" in
  products <-
    match truthy name_arg with
    | Some name_arg =>
        logger_info "find by name: %s" [JStr name_arg] ;;
        Product_find_by_name name_arg
    | None =>
        match truthy cat_arg with
        | Some cat_arg =>
            logger_info "find by category: %s" [JStr cat_arg] ;;
            enum_val <- lift (getattr_Category (str_upper cat_arg)) ;;
            Product_find_by_category enum_val
        | None =>
            match truthy avail_arg with
            | Some avail_arg =>
                logger_info "find by available: %s" [JStr avail_arg] ;;
                Product_find_by_availability (bool_of_str avail_arg)
            | None =>
                logger_info "returning all products" [] ;;
                Product_all
            end
        end
    end ;;
  let results := map serialize products in
  logger_info "[%s] Products returned" [JInt (Z.of_nat (List.length results))] ;;
  ret (BodyJson (JList results), HTTP_200_OK, []).

(** [GET /products/<int:product_id>] *)
Definition get_product (product_id : Z) : M Response :=
  found <- Product_find product_id ;;
  match found with
  | None =>
      abort HTTP_404_NOT_FOUND
            ("Product with id [" ++ str_of_int product_id ++ "] not found")
  | Some found =>
      logger_info "returning product %s found by id %s"
                  [to_json JStr (name found); to_json JInt (id found)] ;;
      ret (BodyJson (serialize found), HTTP_200_OK, [])
  end.

(** [PUT /products/<int:product_id>] *)
Definition update_product (request : Request) (product_id : Z) : M Response :=
  check_content_type request "application/json" ;;
  found <- Product_find product_id ;;
  match found with
  | None =>
      abort HTTP_404_NOT_FOUND
            ("Product with id [" ++ str_of_int product_id ++ "] not found")
  | Some found =>
      logger_info "attempting update on product %s with id %s"
                  [to_json JStr (name found); to_json JInt (id found)] ;;
      data <- get_json request ;;
      found <- lift (deserialize found data) ;;
      let found := set_id found (Some product_id) in
      update found ;;
      ret (BodyJson (serialize found), HTTP_200_OK, [])
  end.

(** [DELETE /products/<int:product_id>] *)
Definition delete_product (product_id : Z) : M Response :=
  found <- Product_find product_id ;;
  match found with
  | None =>
      abort HTTP_404_NOT_FOUND
            ("Product with product_id [" ++ str_of_int product_id ++ "] not found")
  | Some found =>
      logger_info "attempting delete on product %s with product_id %s"
                  [to_json JStr (name found); to_json JInt (id found)] ;;
      delete found ;;
      ret (BodyText "", HTTP_204_NO_CONTENT, [])
  end.

(* ================================================================== *)
(** * What the statements speak of *)
(* ================================================================== *)

(** The data-access calls among the effects of a run. *)
Definition db_calls (evs : list Event) : list DbCall :=
  flat_map (fun e => match e with EvDb call => [call] | _ => [] end) evs.

(** The error the guard logs before it aborts. *)
Definition content_type_complaint (request : Request) : Event :=
  match assoc "Content-Type" (headers request) with
  | None => EvLog ERROR "No Content-Type specified." []
  | Some value => EvLog ERROR "Invalid Content-Type: %s" [JStr value]
  end.

(** A run that the content-type guard ended: 415 with its message, the store
    as it was, and no effect other than log lines (so the body was not
    decoded and the store was not consulted). *)
Definition rejected_unsupported_media_type {A : Type} (db : Store) (r : Run A) : Prop :=
  outcome r = Aborted 415 "Content-Type must be application/json" /\
  store r = db /\
  forallb is_log (events r) = true.

(** The row [Product.find] returns. *)
Definition row_of (db : Store) (product_id : Z) : option Product :=
  find (has_id product_id) (rows db).

(** The description [get_product] and [update_product] abort with. *)
Definition not_found (product_id : Z) : string :=
  "Product with id [" ++ str_of_int product_id ++ "] not found".

(** The description [delete_product] aborts with. *)
Definition not_found_for_delete (product_id : Z) : string :=
  "Product with product_id [" ++ str_of_int product_id ++ "] not found".

(** The answer of [GET /products] that lists [products]. *)
Definition ok_listing (products : list Product) : Outcome Response :=
  Returned (BodyJson (JList (map serialize products)), 200, []).

(** The run of [get_all_products] once [products] have been fetched, with
    [before] the effects up to and including the fetch. *)
Definition listed (db : Store) (before : list Event) (products : list Product) : Run Response :=
  mkRun (Returned (BodyJson (JList (map serialize products)), 200, []))
        db
        (before ++ [EvLog INFO "[%s] Products returned"
                          [JInt (Z.of_nat (List.length (map serialize products)))]]).

(** The request without any [key] parameter in its query string. *)
Definition without_arg (key : string) (request : Request) : Request :=
  mkRequest (headers request)
            (filter (fun kv => negb (String.eqb (fst kv) key)) (args request))
            (json request).

(* ================================================================== *)
(** * The route table *)
(* ================================================================== *)

(** One request to the service, by route and method. *)
Inductive Call :=
| GetHealth
| PostProducts (request : Request)
| GetProducts (request : Request)
| GetProduct (product_id : Z)
| PutProduct (request : Request) (product_id : Z)
| DeleteProduct (product_id : Z).

(** The [@app.route] decorators: which handler serves which request. *)
Definition serve (call : Call) : M Response :=
  match call with
  | GetHealth => healthcheck
  | PostProducts request => create_products request
  | GetProducts request => get_all_products request
  | GetProduct product_id => get_product product_id
  | PutProduct request product_id => update_product request product_id
  | DeleteProduct product_id => delete_product product_id
  end.

(** The store after a sequence of requests, whatever their outcomes. *)
Fixpoint serve_all (calls : list Call) (db : Store) : Store :=
  match calls with
  | [] => db
  | call :: rest => serve_all rest (store (serve call db))
  end.

(** The store of a service that has just started. *)
Definition empty_store : Store := mkStore [] 1.

(** Every id in the table was assigned by the store. *)
Definition ids_assigned (db : Store) : Prop :=
  forall product_id found, row_of db product_id = Some found -> product_id < next_id db.

(** No product has the id, and the store will not assign it again. *)
Definition gone (product_id : Z) (db : Store) : Prop :=
  row_of db product_id = None /\ product_id < next_id db.

(* ================================================================== *)
(** * Further vocabulary: writes and well-formed stores *)
(* ================================================================== *)

(** The data-access calls that change the table. *)
Definition is_write (call : DbCall) : bool :=
  match call with
  | CallCreate | CallUpdate | CallDelete => true
  | _ => false
  end.

(** The ids of the rows, in the order of the rows. *)
Definition ids (db : Store) : list (option Z) := map id (rows db).

(** Every row has an id, the id is below the next id the store assigns, and
    no two rows share an id. *)
Definition well_formed (db : Store) : Prop :=
  NoDup (ids db) /\
  Forall (fun row => exists i, id row = Some i /\ i < next_id db) (rows db).

(** The log line of an update that found its product. *)
Definition update_attempt (found : Product) : Event :=
  EvLog INFO "attempting update on product %s with id %s"
        [to_json JStr (name found); to_json JInt (id found)].

(** The rows after the row of [product_id] has been overwritten by [stored]. *)
Definition overwritten (product_id : Z) (stored : Product) (l : list Product) : list Product :=
  map (fun row => if has_id product_id row then stored else row) l.

End Router.

Arguments mkRun {E A} outcome store events.
Arguments outcome {E A} r.
Arguments store {E A} r.
Arguments events {E A} r.

(* ================================================================== *)
(** * A concrete enumeration and store, for running the handlers *)
(* ================================================================== *)

(** A runtime for requests written in ASCII, on which [ascii_str_upper] is
    [str.upper]. *)
#[export] Instance ascii_runtime : Runtime := {|
  str_upper := ascii_str_upper;
  bad_request_description := "The browser (or proxy) sent a request that this server could not understand."
|}.

(** Modelled from the spec: the members of [Category] that the specification
    names (UNKNOWN, FOOD, CLOTHS). *)
Inductive NamedCategory := UNKNOWN | FOOD | CLOTHS.

Definition NamedCategory_eq_dec (a b : NamedCategory) : {a = b} + {a <> b}.
Proof. decide equality. Defined.

Definition NamedCategory_name (c : NamedCategory) : string :=
  match c with
  | UNKNOWN => "UNKNOWN"
  | FOOD => "FOOD"
  | CLOTHS => "CLOTHS"
  end.

#[export] Instance named_categories : CategoryEnum := {|
  Category := NamedCategory;
  Category_eq_dec := NamedCategory_eq_dec;
  Category_members := [UNKNOWN; FOOD; CLOTHS];
  Category_name := NamedCategory_name
|}.

Definition hat : Product :=
  mkProduct (Some 1) (Some "Hat") (Some "A red fedora") (Some (mkDecimal 1250 (-2)))
            (Some true) (Some CLOTHS).

Definition apple : Product :=
  mkProduct (Some 2) (Some "Apple") (Some "A green apple") (Some (mkDecimal 30 (-2)))
            (Some false) (Some FOOD).

Definition shop : Store := mkStore [hat; apple] 3.

(** A well-formed body whose id the client made up. *)
Definition pear_json : Json :=
  JDict [ ("id", JInt 999);
          ("name", JStr "Pear");
          ("description", JStr "A ripe pear");
          ("price", JDec (mkDecimal 45 (-2)));
          ("available", JBool true);
          ("category", JStr "FOOD") ].

(** The product that [pear_json] describes, before it has an id. *)
Definition pear : Product :=
  mkProduct None (Some "Pear") (Some "A ripe pear") (Some (mkDecimal 45 (-2)))
            (Some true) (Some FOOD).

Definition json_request (data : Json) : Request :=
  mkRequest [("Content-Type", "application/json")] [] (Some data).

Definition text_request (data : Json) : Request :=
  mkRequest [("Content-Type", "text/plain")] [] (Some data).

Definition query_request (query_args : list (string * string)) : Request :=
  mkRequest [] query_args None.

(* ================================================================== *)
(** * Properties of the handlers *)
(* ================================================================== *)

Section Properties.

Context {R : Runtime} {E : CategoryEnum}.

(* ------------------------------------------------------------------ *)
(** ** Running the monad *)

Lemma bind_returned {A B : Type} (m : M A) (k : A -> M B) db a db' evs :
  m db = mkRun (Returned a) db' evs ->
  bind m k db =
  mkRun (outcome (k a db')) (store (k a db')) (evs ++ events (k a db')).
Proof. intros Hm. unfold bind. rewrite Hm. reflexivity. Qed.

Lemma bind_aborted {A B : Type} (m : M A) (k : A -> M B) db code description db' evs :
  m db = mkRun (Aborted code description) db' evs ->
  bind m k db = mkRun (Aborted code description) db' evs.
Proof. intros Hm. unfold bind. rewrite Hm. reflexivity. Qed.

(* ------------------------------------------------------------------ *)
(** ** The content-type guard *)

Lemma check_content_type_rejects request content_type db :
  assoc "Content-Type" (headers request) <> Some content_type ->
  check_content_type request content_type db =
  mkRun (Aborted 415 ("Content-Type must be " ++ content_type)) db
        [content_type_complaint request].
Proof.
  intros Hbad. unfold check_content_type, content_type_complaint.
  destruct (assoc "Content-Type" (headers request)) as [value|]; [|reflexivity].
  destruct (String.eqb_spec value content_type) as [->|Hne]; [congruence|reflexivity].
Qed.

Lemma check_content_type_accepts request content_type db :
  assoc "Content-Type" (headers request) = Some content_type ->
  check_content_type request content_type db = mkRun (Returned tt) db [].
Proof.
  intros Hok. unfold check_content_type. rewrite Hok, String.eqb_refl. reflexivity.
Qed.

Lemma content_type_cases request content_type :
  assoc "Content-Type" (headers request) = Some content_type \/
  assoc "Content-Type" (headers request) <> Some content_type.
Proof.
  destruct (assoc "Content-Type" (headers request)) as [value|]; [|right; discriminate].
  destruct (string_dec value content_type) as [->|Hne]; [now left|right; congruence].
Qed.

Lemma content_type_complaint_is_log request :
  is_log (content_type_complaint request) = true.
Proof.
  unfold content_type_complaint.
  destruct (assoc "Content-Type" (headers request)); reflexivity.
Qed.

(** C1: POST /products and PUT /products/{id} abort with 415 and the message
    "Content-Type must be application/json" whenever the Content-Type header
    is absent or is not exactly "application/json"; the store is unchanged
    and the only effects are log lines: the body is not decoded, nothing is
    created. *)
Theorem C1_wrong_content_type_is_415 (request : Request) (product_id : Z) (db : Store) :
  assoc "Content-Type" (headers request) <> Some "application/json" ->
  rejected_unsupported_media_type db (create_products request db) /\
  rejected_unsupported_media_type db (update_product request product_id db).
Proof.
  intros Hbad.
  pose proof (check_content_type_rejects request "application/json" db Hbad) as Hguard.
  pose proof (content_type_complaint_is_log request) as Hlog.
  split.
  - unfold create_products.
    erewrite bind_returned by reflexivity.
    erewrite (bind_aborted (check_content_type _ _)) by exact Hguard.
    repeat split; simpl. now rewrite Hlog.
  - unfold update_product.
    erewrite bind_aborted by exact Hguard.
    repeat split; simpl. now rewrite Hlog.
Qed.

(** C10: PUT /products/{id} with a Content-Type header that is absent or
    not "application/json" is ended by the guard: the run is the guard's
    (415, one error log line), the store is unchanged and is not even
    consulted, so the answer is 415 and never 404, whether or not a product
    of that id exists. *)
Theorem C10_guard_runs_before_lookup (request : Request) (product_id : Z) (db : Store) :
  assoc "Content-Type" (headers request) <> Some "application/json" ->
  update_product request product_id db =
  mkRun (Aborted 415 "Content-Type must be application/json") db
        [content_type_complaint request] /\
  db_calls (events (update_product request product_id db)) = [] /\
  (row_of db product_id = None ->
   outcome (update_product request product_id db) <> Aborted 404 (not_found product_id)).
Proof.
  intros Hbad.
  assert (Hrun : update_product request product_id db =
                 mkRun (Aborted 415 "Content-Type must be application/json") db
                       [content_type_complaint request]).
  { unfold update_product.
    now rewrite (bind_aborted _ _ _ _ _ _ _
                   (check_content_type_rejects request "application/json" db Hbad)). }
  rewrite Hrun. split; [reflexivity|]. split.
  - unfold content_type_complaint.
    destruct (assoc "Content-Type" (headers request)); reflexivity.
  - intros _. discriminate.
Qed.

(* ------------------------------------------------------------------ *)
(** ** The table *)

Lemma Product_find_run product_id db :
  Product_find product_id db =
  mkRun (Returned (row_of db product_id)) db [EvDb (CallFind product_id)].
Proof. reflexivity. Qed.

Lemma has_id_true product_id p :
  has_id product_id p = true <-> id p = Some product_id.
Proof.
  unfold has_id. destruct (id p) as [i|].
  - rewrite Z.eqb_eq. split; congruence.
  - split; discriminate.
Qed.

Lemma same_row_has_id p product_id row :
  id p = Some product_id -> same_row p row = has_id product_id row.
Proof. intros Hid. unfold same_row. rewrite Hid. reflexivity. Qed.

Lemma row_of_id db product_id p :
  row_of db product_id = Some p -> id p = Some product_id.
Proof.
  intros Hfind. apply find_some in Hfind. now apply has_id_true.
Qed.

(** [Product.find] returns [None] exactly when no row carries the id. *)
Lemma row_of_None db product_id :
  row_of db product_id = None <->
  (forall p, In p (rows db) -> id p <> Some product_id).
Proof.
  unfold row_of. split.
  - intros Hnone p Hin Hid.
    apply (find_none _ _ Hnone) in Hin. apply has_id_true in Hid. congruence.
  - intros Hall. destruct (find (has_id product_id) (rows db)) as [p|] eqn:Hfind; [|reflexivity].
    apply find_some in Hfind. destruct Hfind as [Hin Hid].
    apply has_id_true in Hid. now apply Hall in Hin.
Qed.

Lemma find_after_delete product_id l :
  find (has_id product_id) (filter (fun row => negb (has_id product_id row)) l) = None.
Proof.
  induction l as [|row l IH]; simpl; [reflexivity|].
  destruct (has_id product_id row) eqn:Hrow; simpl; [exact IH|].
  now rewrite Hrow.
Qed.

Lemma has_id_exclusive product_id other row :
  other <> product_id -> has_id product_id row = true -> has_id other row = false.
Proof.
  intros Hne Hrow. apply has_id_true in Hrow.
  destruct (has_id other row) eqn:Hother; [|reflexivity].
  apply has_id_true in Hother. congruence.
Qed.

Lemma find_other_after_delete product_id other l :
  other <> product_id ->
  find (has_id other) (filter (fun row => negb (has_id product_id row)) l) =
  find (has_id other) l.
Proof.
  intros Hne. induction l as [|row l IH]; simpl; [reflexivity|].
  destruct (has_id product_id row) eqn:Hrow; simpl.
  - now rewrite (has_id_exclusive _ _ _ Hne Hrow).
  - now rewrite IH.
Qed.

Lemma find_after_update product_id p l old :
  id p = Some product_id ->
  find (has_id product_id) l = Some old ->
  find (has_id product_id) (map (fun row => if has_id product_id row then p else row) l) =
  Some p.
Proof.
  intros Hid. apply has_id_true in Hid.
  induction l as [|row l IH]; simpl; [discriminate|].
  destruct (has_id product_id row) eqn:Hrow.
  - now rewrite Hid.
  - now rewrite Hrow.
Qed.

Lemma find_other_after_update product_id other p l :
  id p = Some product_id ->
  other <> product_id ->
  find (has_id other) (map (fun row => if has_id product_id row then p else row) l) =
  find (has_id other) l.
Proof.
  intros Hid Hne. apply has_id_true in Hid.
  induction l as [|row l IH]; simpl; [reflexivity|].
  destruct (has_id product_id row) eqn:Hrow.
  - rewrite (has_id_exclusive _ _ _ Hne Hid), (has_id_exclusive _ _ _ Hne Hrow). exact IH.
  - destruct (has_id other row); [reflexivity|exact IH].
Qed.

(* ------------------------------------------------------------------ *)
(** ** Reading one product *)

Lemma contains_middle (before needle after : string) :
  contains needle (before ++ needle ++ after).
Proof. now exists before, after. Qed.

Lemma get_product_run product_id db :
  store (get_product product_id db) = db /\
  outcome (get_product product_id db) =
  match row_of db product_id with
  | None => Aborted 404 (not_found product_id)
  | Some found => Returned (BodyJson (serialize found), 200, [])
  end.
Proof.
  unfold get_product.
  rewrite (bind_returned _ _ _ _ _ _ (Product_find_run product_id db)).
  destruct (row_of db product_id); split; reflexivity.
Qed.

(** C7: GET /products/{id} leaves the store alone; when no product has the
    id it aborts with 404 and a message that contains the id, otherwise it
    returns 200 with the serialized product. *)
Theorem C7_get_product_200_or_404 (product_id : Z) (db : Store) :
  store (get_product product_id db) = db /\
  contains (str_of_int product_id) (not_found product_id) /\
  outcome (get_product product_id db) =
  match row_of db product_id with
  | None => Aborted 404 (not_found product_id)
  | Some found => Returned (BodyJson (serialize found), 200, [])
  end.
Proof.
  destruct (get_product_run product_id db) as [Hstore Houtcome].
  split; [exact Hstore|split; [|exact Houtcome]].
  apply contains_middle.
Qed.

(* ------------------------------------------------------------------ *)
(** ** Deserializing a body *)

(** What [deserialize] makes of a body does not depend on the object it is
    called on, except for the id. *)
Lemma deserialize_onto self data :
  deserialize self data =
  and_then (deserialize Product_new data)
           (fun p => inr (set_id p (id_from_body self data))).
Proof.
  unfold deserialize.
  destruct (and_then (item "name" data) as_str); [reflexivity|]; simpl.
  destruct (and_then (item "description" data) as_str); [reflexivity|]; simpl.
  destruct (and_then (item "price" data) as_price); [reflexivity|]; simpl.
  destruct (and_then (item "available" data) as_bool); [reflexivity|]; simpl.
  destruct (and_then (item "category" data) as_category); reflexivity.
Qed.

Lemma deserialize_describes self data p :
  deserialize self data = inr p ->
  id p = id_from_body self data /\ describes data p.
Proof.
  unfold deserialize, describes.
  destruct (and_then (item "name" data) as_str) as [|n]; [discriminate|]; simpl.
  destruct (and_then (item "description" data) as_str) as [|d]; [discriminate|]; simpl.
  destruct (and_then (item "price" data) as_price) as [|pr]; [discriminate|]; simpl.
  destruct (and_then (item "available" data) as_bool) as [|a]; [discriminate|]; simpl.
  destruct (and_then (item "category" data) as_category) as [|c]; [discriminate|]; simpl.
  intros [= <-]. split; [reflexivity|].
  exists n, d, pr, a, c. repeat split; reflexivity.
Qed.

Lemma describes_set_id data p i :
  describes data p -> describes data (set_id p i).
Proof. intros H. exact H. Qed.

Lemma get_json_run request data db :
  json request = Some data ->
  get_json request db = mkRun (Returned data) db [EvGetJson].
Proof. intros Hjson. unfold get_json, bind. simpl. rewrite Hjson. reflexivity. Qed.

(* ------------------------------------------------------------------ *)
(** ** Creating a product *)

(** C8: POST /products with JSON content type and a body that deserializes
    into a product persists that product under the id the store assigns
    (whatever id the body carries) and returns 201 with the serialized
    created product and the header [Location: /]. *)
Theorem C8_create_returns_201_and_placeholder_location
    (request : Request) (db : Store) (data : Json) (product : Product) :
  assoc "Content-Type" (headers request) = Some "application/json" ->
  json request = Some data ->
  deserialize Product_new data = inr product ->
  let created := set_id product (Some (next_id db)) in
  outcome (create_products request db) =
  Returned (BodyJson (serialize created), 201, [("Location", "/")]) /\
  store (create_products request db) = mkStore (rows db ++ [created]) (next_id db + 1) /\
  id created = Some (next_id db) /\
  describes data created.
Proof.
  intros Hct Hjson Hdata created.
  assert (Hrun : create_products request db =
                 mkRun (Returned (BodyJson (serialize created), 201, [("Location", "/")]))
                       (mkStore (rows db ++ [created]) (next_id db + 1))
                       [EvLog INFO "Request to Create a Product..." [];
                        EvGetJson;
                        EvLog INFO "Processing: %s" [data];
                        EvDb CallCreate;
                        EvLog INFO "Product with new id [%s] saved!" [JInt (next_id db)]]).
  { unfold create_products.
    erewrite bind_returned by reflexivity.
    erewrite bind_returned by (apply check_content_type_accepts; exact Hct).
    erewrite bind_returned by (apply get_json_run; exact Hjson).
    erewrite bind_returned by reflexivity.
    rewrite Hdata. reflexivity. }
  rewrite Hrun. repeat split.
  apply describes_set_id. now apply (deserialize_describes Product_new).
Qed.

(* ------------------------------------------------------------------ *)
(** ** Listing products *)

Lemma bool_of_str_true s : bool_of_str s = true <-> s <> "".
Proof.
  unfold bool_of_str. destruct (String.eqb_spec s ""); simpl; split; congruence.
Qed.

(** [if x:] takes the branch exactly when [x] is a non-empty string. *)
Lemma truthy_Some x s : truthy x = Some s <-> x = Some s /\ s <> "".
Proof.
  unfold truthy. destruct x as [s'|].
  - destruct (bool_of_str s') eqn:Hs'.
    + apply bool_of_str_true in Hs'. split.
      * intros [= <-]. now split.
      * now intros [[= <-] _].
    + split; [discriminate|]. intros [[= <-] Hne].
      apply bool_of_str_true in Hne. congruence.
  - split; [discriminate|]. now intros [? _].
Qed.

(** [if x:] skips the branch exactly when [x] is [None] or the empty string. *)
Lemma truthy_None x : truthy x = None <-> x = None \/ x = Some "".
Proof.
  unfold truthy. destruct x as [s|].
  - unfold bool_of_str. destruct (String.eqb_spec s "") as [->|Hne]; simpl.
    + split; auto.
    + split; [discriminate|]. intros [|[=]]; congruence.
  - split; auto.
Qed.

Lemma listed_by_name request db n :
  truthy (args_get request "name") = Some n ->
  get_all_products request db =
  listed db [EvLog INFO "find by name: %s" [JStr n]; EvDb (CallFindByName n)]
         (filter (has_name n) (rows db)).
Proof. intros Hname. unfold get_all_products. rewrite Hname. reflexivity. Qed.

Lemma listed_by_category request db c member :
  truthy (args_get request "name") = None ->
  truthy (args_get request "category") = Some c ->
  getattr_Category (str_upper c) = inr member ->
  get_all_products request db =
  listed db [EvLog INFO "find by category: %s" [JStr c];
             EvDb (CallFindByCategory (Category_name member))]
         (filter (has_category member) (rows db)).
Proof.
  intros Hname Hcat Hmember. unfold get_all_products. rewrite Hname, Hcat.
  unfold bind at 1. unfold bind at 1. unfold bind at 2. simpl.
  rewrite Hmember. reflexivity.
Qed.

Lemma unknown_category_raises request db c e :
  truthy (args_get request "name") = None ->
  truthy (args_get request "category") = Some c ->
  getattr_Category (str_upper c) = inl e ->
  get_all_products request db =
  mkRun (Raised e) db [EvLog INFO "find by category: %s" [JStr c]].
Proof.
  intros Hname Hcat Hmember. unfold get_all_products. rewrite Hname, Hcat.
  unfold bind at 1. unfold bind at 1. unfold bind at 2. simpl.
  rewrite Hmember. reflexivity.
Qed.

Lemma listed_by_availability request db v :
  truthy (args_get request "name") = None ->
  truthy (args_get request "category") = None ->
  truthy (args_get request "available") = Some v ->
  get_all_products request db =
  listed db [EvLog INFO "find by available: %s" [JStr v];
             EvDb (CallFindByAvailability true)]
         (filter (has_availability true) (rows db)).
Proof.
  intros Hname Hcat Havail. unfold get_all_products. rewrite Hname, Hcat, Havail.
  apply truthy_Some in Havail. destruct Havail as [_ Hne].
  apply bool_of_str_true in Hne. rewrite Hne. reflexivity.
Qed.

Lemma listed_all request db :
  truthy (args_get request "name") = None ->
  truthy (args_get request "category") = None ->
  truthy (args_get request "available") = None ->
  get_all_products request db =
  listed db [EvLog INFO "returning all products" []; EvDb CallAll] (rows db).
Proof.
  intros Hname Hcat Havail. unfold get_all_products. rewrite Hname, Hcat, Havail.
  reflexivity.
Qed.

Lemma getattr_Category_inr s member :
  getattr_Category s = inr member ->
  In member Category_members /\ Category_name member = s.
Proof.
  unfold getattr_Category.
  destruct (find _ Category_members) as [c|] eqn:Hfind; [|discriminate].
  intros [= <-]. apply find_some in Hfind. destruct Hfind as [Hin Hname].
  split; [exact Hin|]. now apply String.eqb_eq.
Qed.

Lemma getattr_Category_unknown s :
  (forall member, In member Category_members -> Category_name member <> s) ->
  getattr_Category s = inl (AttributeError s).
Proof.
  intros Hunknown. destruct (getattr_Category s) as [e|member] eqn:Hget.
  - unfold getattr_Category in Hget.
    destruct (find _ Category_members); [discriminate|]. now symmetry.
  - apply getattr_Category_inr in Hget. destruct Hget as [Hin Hname].
    now apply Hunknown in Hin.
Qed.

Lemma getattr_Category_known s member :
  In member Category_members ->
  Category_name member = s ->
  exists member', getattr_Category s = inr member'.
Proof.
  intros Hin Hname. destruct (getattr_Category s) as [e|member'] eqn:Hget.
  - unfold getattr_Category in Hget.
    destruct (find _ Category_members) eqn:Hfind; [discriminate|].
    apply (find_none _ _ Hfind) in Hin. apply String.eqb_neq in Hin. contradiction.
  - now exists member'.
Qed.

(** C3: GET /products with a non-empty [available] parameter and no [name]
    or [category] parameter lists exactly the products whose [available] is
    true, with 200, through one query for availability [True]; the answer
    does not depend on the parameter's text, so [available=false] lists the
    available products too. *)
Theorem C3_available_is_always_true (request : Request) (db : Store) (v : string) :
  args_get request "name" = None ->
  args_get request "category" = None ->
  args_get request "available" = Some v ->
  v <> "" ->
  outcome (get_all_products request db) =
  ok_listing (filter (has_availability true) (rows db)) /\
  db_calls (events (get_all_products request db)) = [CallFindByAvailability true] /\
  store (get_all_products request db) = db.
Proof.
  intros Hname Hcat Havail Hne.
  rewrite (listed_by_availability request db v).
  - repeat split.
  - now rewrite Hname.
  - now rewrite Hcat.
  - apply truthy_Some. now split.
Qed.

(** C4 (amended): GET /products with no [name] parameter and a non-empty
    [category] parameter: when no member of Category is named by the
    upper-cased parameter, the handler leaves by an [AttributeError] that
    nothing catches (not by a return, not by an abort) and the store is
    unchanged; when a member is named by the upper-cased parameter, in
    whatever letter case the parameter was written, the handler lists the
    products of a member of that name with 200; and two spellings of the
    parameter that agree once upper-cased get the same answer. *)
Theorem C4_unknown_category_raises (request : Request) (db : Store) (c : string) :
  args_get request "name" = None ->
  args_get request "category" = Some c ->
  c <> "" ->
  ((forall member, In member Category_members -> Category_name member <> str_upper c) ->
   outcome (get_all_products request db) = Raised (AttributeError (str_upper c)) /\
   store (get_all_products request db) = db)
  /\
  (forall member, In member Category_members -> Category_name member = str_upper c ->
   exists member',
     In member' Category_members /\
     Category_name member' = Category_name member /\
     outcome (get_all_products request db) =
     ok_listing (filter (has_category member') (rows db)))
  /\
  (forall request' c',
     args_get request' "name" = None ->
     args_get request' "category" = Some c' ->
     c' <> "" ->
     str_upper c' = str_upper c ->
     outcome (get_all_products request' db) = outcome (get_all_products request db)).
Proof.
  intros Hname Hcat Hne.
  assert (Hname' : truthy (args_get request "name") = None) by now rewrite Hname.
  assert (Hcat' : truthy (args_get request "category") = Some c)
    by (apply truthy_Some; now split).
  split; [|split].
  - intros Hunknown.
    rewrite (unknown_category_raises request db c _ Hname' Hcat'
               (getattr_Category_unknown _ Hunknown)).
    split; reflexivity.
  - intros member Hin Hmember.
    destruct (getattr_Category_known _ _ Hin Hmember) as [member' Hget].
    exists member'. destruct (getattr_Category_inr _ _ Hget) as [Hin' Hname''].
    split; [exact Hin'|]. split; [congruence|].
    now rewrite (listed_by_category request db c member' Hname' Hcat' Hget).
  - intros request' c' Hname2 Hcat2 Hne2 Hsame.
    assert (Hname2' : truthy (args_get request' "name") = None) by now rewrite Hname2.
    assert (Hcat2' : truthy (args_get request' "category") = Some c')
      by (apply truthy_Some; now split).
    destruct (getattr_Category (str_upper c)) as [e|member] eqn:Hget.
    + rewrite (unknown_category_raises request db c e Hname' Hcat' Hget).
      rewrite <- Hsame in Hget.
      now rewrite (unknown_category_raises request' db c' e Hname2' Hcat2' Hget).
    + rewrite (listed_by_category request db c member Hname' Hcat' Hget).
      rewrite <- Hsame in Hget.
      now rewrite (listed_by_category request' db c' member Hname2' Hcat2' Hget).
Qed.

(** C5: GET /products makes at most one query, chosen by precedence.  With
    a non-empty [name] it lists the products of that name, whatever the
    other parameters are.  Otherwise (name absent or empty), with a
    non-empty [category], the category alone decides: the products of the
    member it names are listed, or the lookup of the member raises and no
    query is made.  Otherwise, with a non-empty [available], the available
    products are listed.  Otherwise all products are listed.  Every listing
    is answered 200. *)
Theorem C5_filter_precedence (request : Request) (db : Store) :
  (List.length (db_calls (events (get_all_products request db))) <= 1)%nat /\
  (forall n,
     args_get request "name" = Some n ->
     n <> "" ->
     outcome (get_all_products request db) = ok_listing (filter (has_name n) (rows db)) /\
     db_calls (events (get_all_products request db)) = [CallFindByName n]) /\
  (forall c,
     args_get request "name" = None \/ args_get request "name" = Some "" ->
     args_get request "category" = Some c ->
     c <> "" ->
     match getattr_Category (str_upper c) with
     | inr member =>
         outcome (get_all_products request db) =
         ok_listing (filter (has_category member) (rows db)) /\
         db_calls (events (get_all_products request db)) =
         [CallFindByCategory (Category_name member)]
     | inl e =>
         outcome (get_all_products request db) = Raised e /\
         db_calls (events (get_all_products request db)) = []
     end) /\
  (forall v,
     args_get request "name" = None \/ args_get request "name" = Some "" ->
     args_get request "category" = None \/ args_get request "category" = Some "" ->
     args_get request "available" = Some v ->
     v <> "" ->
     outcome (get_all_products request db) =
     ok_listing (filter (has_availability true) (rows db)) /\
     db_calls (events (get_all_products request db)) = [CallFindByAvailability true]) /\
  (args_get request "name" = None \/ args_get request "name" = Some "" ->
   args_get request "category" = None \/ args_get request "category" = Some "" ->
   args_get request "available" = None \/ args_get request "available" = Some "" ->
   outcome (get_all_products request db) = ok_listing (rows db) /\
   db_calls (events (get_all_products request db)) = [CallAll]).
Proof.
  split; [|split; [|split; [|split]]].
  - destruct (truthy (args_get request "name")) as [n|] eqn:Hname.
    { rewrite (listed_by_name request db n Hname). simpl. lia. }
    destruct (truthy (args_get request "category")) as [c|] eqn:Hcat.
    { destruct (getattr_Category (str_upper c)) as [e|member] eqn:Hget.
      - rewrite (unknown_category_raises request db c e Hname Hcat Hget). simpl. lia.
      - rewrite (listed_by_category request db c member Hname Hcat Hget). simpl. lia. }
    destruct (truthy (args_get request "available")) as [v|] eqn:Havail.
    { rewrite (listed_by_availability request db v Hname Hcat Havail). simpl. lia. }
    rewrite (listed_all request db Hname Hcat Havail). simpl. lia.
  - intros n Hname Hne.
    rewrite (listed_by_name request db n) by (apply truthy_Some; now split).
    split; reflexivity.
  - intros c Hname Hcat Hne.
    apply truthy_None in Hname.
    assert (Hcat' : truthy (args_get request "category") = Some c)
      by (apply truthy_Some; now split).
    destruct (getattr_Category (str_upper c)) as [e|member] eqn:Hget.
    + rewrite (unknown_category_raises request db c e Hname Hcat' Hget). split; reflexivity.
    + rewrite (listed_by_category request db c member Hname Hcat' Hget). split; reflexivity.
  - intros v Hname Hcat Havail Hne.
    apply truthy_None in Hname. apply truthy_None in Hcat.
    rewrite (listed_by_availability request db v Hname Hcat)
      by (apply truthy_Some; now split).
    split; reflexivity.
  - intros Hname Hcat Havail.
    apply truthy_None in Hname. apply truthy_None in Hcat. apply truthy_None in Havail.
    rewrite (listed_all request db Hname Hcat Havail). split; reflexivity.
Qed.

Lemma assoc_without_same {A : Type} key (items : list (string * A)) :
  assoc key (filter (fun kv => negb (String.eqb (fst kv) key)) items) = None.
Proof.
  induction items as [|[k v] items IH]; simpl; [reflexivity|].
  destruct (String.eqb k key) eqn:Hk; simpl; [exact IH|].
  now rewrite Hk.
Qed.

Lemma assoc_without_other {A : Type} key other (items : list (string * A)) :
  other <> key ->
  assoc other (filter (fun kv => negb (String.eqb (fst kv) key)) items) = assoc other items.
Proof.
  intros Hne. induction items as [|[k v] items IH]; simpl; [reflexivity|].
  destruct (String.eqb_spec k key) as [->|Hk]; simpl.
  - destruct (String.eqb_spec key other); [congruence|exact IH].
  - now rewrite IH.
Qed.

Lemma truthy_without_arg key request k :
  args_get request key = Some "" ->
  truthy (args_get (without_arg key request) k) = truthy (args_get request k).
Proof.
  intros Hempty. unfold args_get, without_arg; simpl.
  destruct (String.eqb_spec k key) as [->|Hne].
  - rewrite assoc_without_same. unfold args_get in Hempty. now rewrite Hempty.
  - now rewrite assoc_without_other.
Qed.

(** [get_all_products] reads the request only through the three tests
    [if name_arg], [elif cat_arg], [elif avail_arg]. *)
Lemma get_all_products_reads_three_tests request request' db :
  truthy (args_get request "name") = truthy (args_get request' "name") ->
  truthy (args_get request "category") = truthy (args_get request' "category") ->
  truthy (args_get request "available") = truthy (args_get request' "available") ->
  get_all_products request db = get_all_products request' db.
Proof.
  intros Hname Hcat Havail. unfold get_all_products.
  now rewrite Hname, Hcat, Havail.
Qed.

(** C9: a query parameter whose value is the empty string is treated as if
    the parameter were absent: the whole run is the run on the request
    without that parameter; and when each of [name], [category] and
    [available] is absent or empty, all products are listed with 200. *)
Theorem C9_empty_parameter_is_absent (request : Request) (db : Store) :
  (forall key,
     args_get request key = Some "" ->
     get_all_products request db = get_all_products (without_arg key request) db) /\
  ((forall key, In key ["name"; "category"; "available"] ->
      args_get request key = None \/ args_get request key = Some "") ->
   outcome (get_all_products request db) = ok_listing (rows db) /\
   db_calls (events (get_all_products request db)) = [CallAll]).
Proof.
  split.
  - intros key Hempty.
    apply get_all_products_reads_three_tests;
      symmetry; now apply truthy_without_arg.
  - intros Hblank.
    rewrite (listed_all request db); [split; reflexivity| | |];
      apply truthy_None; apply Hblank; simpl; auto.
Qed.

(* ------------------------------------------------------------------ *)
(** ** What a request can do to the store *)

Lemma get_all_products_store request db :
  store (get_all_products request db) = db.
Proof.
  destruct (truthy (args_get request "name")) as [n|] eqn:Hname.
  { now rewrite (listed_by_name request db n Hname). }
  destruct (truthy (args_get request "category")) as [c|] eqn:Hcat.
  { destruct (getattr_Category (str_upper c)) as [e|member] eqn:Hget.
    - now rewrite (unknown_category_raises request db c e Hname Hcat Hget).
    - now rewrite (listed_by_category request db c member Hname Hcat Hget). }
  destruct (truthy (args_get request "available")) as [v|] eqn:Havail.
  { now rewrite (listed_by_availability request db v Hname Hcat Havail). }
  now rewrite (listed_all request db Hname Hcat Havail).
Qed.

(** A POST leaves the store as it was or appends one row under the next id. *)
Lemma create_products_store request db :
  store (create_products request db) = db \/
  exists product,
    store (create_products request db) =
    mkStore (rows db ++ [set_id product (Some (next_id db))]) (next_id db + 1).
Proof.
  unfold create_products.
  erewrite bind_returned by reflexivity.
  destruct (content_type_cases request "application/json") as [Hct|Hct].
  - erewrite bind_returned by (apply check_content_type_accepts; exact Hct).
    destruct (json request) as [data|] eqn:Hjson.
    + erewrite bind_returned by (apply get_json_run; exact Hjson).
      erewrite bind_returned by reflexivity.
      destruct (deserialize Product_new data) as [e|product]; [now left|].
      right. now exists product.
    + left. unfold get_json, bind. simpl. now rewrite Hjson.
  - left. now erewrite bind_aborted by (apply check_content_type_rejects; exact Hct).
Qed.

(** A PUT leaves the store as it was or replaces the row of the path's id
    by a product of that id. *)
Lemma update_product_store request product_id db :
  store (update_product request product_id db) = db \/
  exists found stored,
    row_of db product_id = Some found /\
    id stored = Some product_id /\
    store (update_product request product_id db) =
    mkStore (map (fun row => if has_id product_id row then stored else row) (rows db))
            (next_id db).
Proof.
  unfold update_product.
  destruct (content_type_cases request "application/json") as [Hct|Hct].
  - erewrite bind_returned by (apply check_content_type_accepts; exact Hct).
    erewrite bind_returned by apply Product_find_run.
    destruct (row_of db product_id) as [found|] eqn:Hfound; [|now left].
    erewrite bind_returned by reflexivity.
    destruct (json request) as [data|] eqn:Hjson.
    + erewrite bind_returned by (apply get_json_run; exact Hjson).
      destruct (deserialize found data) as [e|updated]; [now left|].
      right. exists found, (set_id updated (Some product_id)). now repeat split.
    + left. unfold get_json, bind. simpl. now rewrite Hjson.
  - left. now erewrite bind_aborted by (apply check_content_type_rejects; exact Hct).
Qed.

(** A DELETE leaves the store as it was or removes the rows of the path's id. *)
Lemma delete_product_store product_id db :
  store (delete_product product_id db) =
  match row_of db product_id with
  | Some _ =>
      mkStore (filter (fun row => negb (has_id product_id row)) (rows db)) (next_id db)
  | None => db
  end.
Proof.
  unfold delete_product.
  rewrite (bind_returned _ _ _ _ _ _ (Product_find_run product_id db)).
  destruct (row_of db product_id) as [found|] eqn:Hfound; [|reflexivity].
  simpl. f_equal. apply filter_ext. intros row.
  now rewrite (same_row_has_id _ _ _ (row_of_id _ _ _ Hfound)).
Qed.

Lemma find_app_None {A : Type} (f : A -> bool) l l' :
  find f l = None -> find f (l ++ l') = find f l'.
Proof.
  induction l as [|a l IH]; simpl; [reflexivity|].
  destruct (f a); [discriminate|exact IH].
Qed.

Lemma find_app_Some {A : Type} (f : A -> bool) l l' a :
  find f l = Some a -> find f (l ++ l') = Some a.
Proof.
  induction l as [|b l IH]; simpl; [discriminate|].
  destruct (f b); [trivial|exact IH].
Qed.

Lemma row_of_created db product other :
  row_of (mkStore (rows db ++ [set_id product (Some (next_id db))]) (next_id db + 1)) other =
  match row_of db other with
  | Some found => Some found
  | None =>
      if next_id db =? other then Some (set_id product (Some (next_id db))) else None
  end.
Proof.
  unfold row_of. simpl.
  destruct (find (has_id other) (rows db)) as [found|] eqn:Hfind.
  - now apply find_app_Some.
  - rewrite (find_app_None _ _ _ Hfind). reflexivity.
Qed.

(* ------------------------------------------------------------------ *)
(** ** Invariants of the store *)

(** Once a product is gone, no request brings its id back. *)
Lemma serve_keeps_gone product_id call db :
  gone product_id db -> gone product_id (store (serve call db)).
Proof.
  intros [Habsent Hbelow]. destruct call as [|request|request|q|request q|q]; cbn [serve].
  - now split.
  - destruct (create_products_store request db) as [->|[product ->]]; [now split|].
    split; simpl; [|lia].
    rewrite row_of_created, Habsent.
    destruct (Z.eqb_spec (next_id db) product_id); [lia|reflexivity].
  - rewrite get_all_products_store. now split.
  - destruct (get_product_run q db) as [-> _]. now split.
  - destruct (update_product_store request q db)
      as [->|(found & stored & Hfound & Hid & ->)]; [now split|].
    split; [|exact Hbelow]. unfold row_of; simpl.
    rewrite find_other_after_update; [exact Habsent|exact Hid|].
    intros ->. congruence.
  - rewrite delete_product_store.
    destruct (row_of db q) as [found|] eqn:Hfound; [|now split].
    split; [|exact Hbelow]. unfold row_of; simpl.
    destruct (Z.eq_dec product_id q) as [->|Hne].
    + apply find_after_delete.
    + now rewrite find_other_after_delete.
Qed.

Lemma serve_all_keeps_gone product_id calls db :
  gone product_id db -> gone product_id (serve_all calls db).
Proof.
  revert db. induction calls as [|call calls IH]; intros db Hgone; simpl.
  - exact Hgone.
  - apply IH. now apply serve_keeps_gone.
Qed.

(** Requests keep every id of the table below the next id. *)
Lemma serve_keeps_ids_assigned call db :
  ids_assigned db -> ids_assigned (store (serve call db)).
Proof.
  intros Hids. destruct call as [|request|request|q|request q|q]; cbn [serve].
  - exact Hids.
  - destruct (create_products_store request db) as [->|[product ->]]; [exact Hids|].
    intros other found. rewrite row_of_created. simpl.
    destruct (row_of db other) as [old|] eqn:Hold.
    + intros _. apply Hids in Hold. lia.
    + destruct (Z.eqb_spec (next_id db) other); [lia|discriminate].
  - now rewrite get_all_products_store.
  - now destruct (get_product_run q db) as [-> _].
  - destruct (update_product_store request q db)
      as [->|(old & stored & Hold & Hid & ->)]; [exact Hids|].
    intros other found. unfold row_of; simpl.
    destruct (Z.eq_dec other q) as [->|Hne].
    + intros _. now apply Hids in Hold.
    + rewrite find_other_after_update by assumption. apply Hids.
  - rewrite delete_product_store.
    destruct (row_of db q) as [old|] eqn:Hold; [|exact Hids].
    intros other found. unfold row_of; simpl.
    destruct (Z.eq_dec other q) as [->|Hne].
    + now rewrite find_after_delete.
    + rewrite find_other_after_delete by assumption. apply Hids.
Qed.

(** Whatever requests a service has answered since it started, every id of
    its table is below the next id. *)
Lemma ids_assigned_since_start calls db :
  ids_assigned db -> ids_assigned (serve_all calls db).
Proof.
  revert db. induction calls as [|call calls IH]; intros db Hids; simpl.
  - exact Hids.
  - apply IH. now apply serve_keeps_ids_assigned.
Qed.

Lemma ids_assigned_empty_store : ids_assigned empty_store.
Proof. intros product_id found. discriminate. Qed.

(* ------------------------------------------------------------------ *)
(** ** Deleting a product *)

(** C6: DELETE /products/{id} on an existing product returns 204 with an
    empty body and removes the product and no other, so that a GET of the
    same id on the resulting store aborts with 404, and still does after any
    further requests when the ids of the table were assigned by the store;
    on an absent id the DELETE itself aborts with 404 and leaves the store
    as it was. *)
Theorem C6_delete_then_get_is_404 (product_id : Z) (db : Store) :
  match row_of db product_id with
  | Some found =>
      outcome (delete_product product_id db) = Returned (BodyText "", 204, []) /\
      row_of (store (delete_product product_id db)) product_id = None /\
      (forall other, other <> product_id ->
         row_of (store (delete_product product_id db)) other = row_of db other) /\
      outcome (get_product product_id (store (delete_product product_id db))) =
      Aborted 404 (not_found product_id) /\
      (ids_assigned db ->
       forall calls,
         outcome (get_product product_id
                    (serve_all calls (store (delete_product product_id db)))) =
         Aborted 404 (not_found product_id))
  | None =>
      outcome (delete_product product_id db) =
      Aborted 404 (not_found_for_delete product_id) /\
      store (delete_product product_id db) = db
  end.
Proof.
  pose proof (delete_product_store product_id db) as Hstore.
  destruct (row_of db product_id) as [found|] eqn:Hfound.
  - assert (Hgone : row_of (store (delete_product product_id db)) product_id = None).
    { rewrite Hstore. apply find_after_delete. }
    split; [|split; [exact Hgone|split; [|split]]].
    + unfold delete_product.
      rewrite (bind_returned _ _ _ _ _ _ (Product_find_run product_id db)).
      rewrite Hfound. reflexivity.
    + intros other Hne. rewrite Hstore. now apply find_other_after_delete.
    + destruct (get_product_run product_id
                  (store (delete_product product_id db))) as [_ Hget].
      now rewrite Hget, Hgone.
    + intros Hids calls.
      assert (Hlater : gone product_id
                         (serve_all calls (store (delete_product product_id db)))).
      { apply serve_all_keeps_gone. split; [exact Hgone|].
        rewrite Hstore. simpl. now apply (Hids product_id found). }
      destruct (get_product_run product_id
                  (serve_all calls (store (delete_product product_id db)))) as [_ Hget].
      destruct Hlater as [Habsent _]. now rewrite Hget, Habsent.
  - unfold delete_product.
    rewrite (bind_returned _ _ _ _ _ _ (Product_find_run product_id db)).
    rewrite Hfound. split; reflexivity.
Qed.

(* ------------------------------------------------------------------ *)
(** ** Updating a product *)

(** Whatever the body of a PUT is, the product stored under the path's id
    afterwards has that id. *)
Lemma update_product_keeps_the_id request product_id db found :
  row_of db product_id = Some found ->
  exists stored,
    row_of (store (update_product request product_id db)) product_id = Some stored /\
    id stored = Some product_id.
Proof.
  intros Hfound.
  destruct (update_product_store request product_id db)
    as [->|(old & stored & Hold & Hid & ->)].
  - exists found. split; [exact Hfound|]. now apply (row_of_id db).
  - exists stored. split; [|exact Hid]. unfold row_of; simpl.
    now apply (find_after_update product_id stored (rows db) old).
Qed.

(** C2 (amended): PUT /products/{id} on an existing id, with JSON content
    type and a body that is a valid product (it deserializes into
    [product], whose id is whatever the body carries): the answer is 200
    with the serialized stored product; the product stored under the path's
    id is [product] with its id forced to the path's, so its id is the
    path's and its other attributes are the body's values; and the row of
    any other id, the id the body carries included, is as it was. *)
Theorem C2_update_keeps_path_id
    (request : Request) (product_id : Z) (db : Store)
    (found : Product) (data : Json) (product : Product) :
  assoc "Content-Type" (headers request) = Some "application/json" ->
  row_of db product_id = Some found ->
  json request = Some data ->
  deserialize Product_new data = inr product ->
  outcome (update_product request product_id db) =
  Returned (BodyJson (serialize (set_id product (Some product_id))), 200, []) /\
  row_of (store (update_product request product_id db)) product_id =
  Some (set_id product (Some product_id)) /\
  id (set_id product (Some product_id)) = Some product_id /\
  describes data (set_id product (Some product_id)) /\
  (forall other, other <> product_id ->
     row_of (store (update_product request product_id db)) other = row_of db other).
Proof.
  intros Hct Hfound Hjson Hdata.
  set (stored := set_id product (Some product_id)).
  assert (Hrun : update_product request product_id db =
                 mkRun (Returned (BodyJson (serialize stored), 200, []))
                       (mkStore (map (fun row => if has_id product_id row then stored else row)
                                     (rows db))
                                (next_id db))
                       [EvDb (CallFind product_id);
                        EvLog INFO "attempting update on product %s with id %s"
                              [to_json JStr (name found); to_json JInt (id found)];
                        EvGetJson;
                        EvDb CallUpdate]).
  { unfold update_product.
    erewrite bind_returned by (apply check_content_type_accepts; exact Hct).
    erewrite bind_returned by apply Product_find_run.
    rewrite Hfound.
    erewrite bind_returned by reflexivity.
    erewrite bind_returned by (apply get_json_run; exact Hjson).
    rewrite deserialize_onto, Hdata. reflexivity. }
  rewrite Hrun. simpl. split; [reflexivity|]. split; [|split; [reflexivity|split]].
  - unfold row_of. simpl. now apply (find_after_update product_id stored (rows db) found).
  - apply describes_set_id. now apply (deserialize_describes Product_new).
  - intros other Hne. unfold row_of. simpl. now apply find_other_after_update.
Qed.

(* ------------------------------------------------------------------ *)
(** ** Further properties the specification lists *)

(** [GET /health] answers [{"status": 200, "message": "OK"}] with 200,
    whatever the store holds, and touches nothing. *)
Lemma healthcheck_always_ok (db : Store) :
  healthcheck db =
  mkRun (Returned (BodyJson (JDict [("status", JInt 200); ("message", JStr "OK")]), 200, []))
        db [].
Proof. reflexivity. Qed.

(** A product that was created can be read back under the id of the
    answer, with the attributes of the body. *)
Lemma create_then_get (request : Request) (db : Store) (data : Json) (product : Product) :
  ids_assigned db ->
  assoc "Content-Type" (headers request) = Some "application/json" ->
  json request = Some data ->
  deserialize Product_new data = inr product ->
  outcome (get_product (next_id db) (store (create_products request db))) =
  Returned (BodyJson (serialize (set_id product (Some (next_id db)))), 200, []).
Proof.
  intros Hids Hct Hjson Hdata.
  assert (Hstore : store (create_products request db) =
                   mkStore (rows db ++ [set_id product (Some (next_id db))]) (next_id db + 1)).
  { unfold create_products.
    erewrite bind_returned by reflexivity.
    erewrite bind_returned by (apply check_content_type_accepts; exact Hct).
    erewrite bind_returned by (apply get_json_run; exact Hjson).
    erewrite bind_returned by reflexivity.
    rewrite Hdata. reflexivity. }
  destruct (get_product_run (next_id db) (store (create_products request db))) as [_ ->].
  rewrite Hstore, row_of_created.
  destruct (row_of db (next_id db)) as [old|] eqn:Hold.
  - apply Hids in Hold. lia.
  - now rewrite Z.eqb_refl.
Qed.

(** [GET /products?name=N] lists exactly the products whose name is [N], in
    the store's order. *)
Lemma list_by_name_is_the_subset (request : Request) (db : Store) (n : string) :
  args_get request "name" = Some n ->
  n <> "" ->
  outcome (get_all_products request db) =
  ok_listing (filter (fun p => if option_string_dec (name p) (Some n) then true else false)
                     (rows db)).
Proof.
  intros Hname Hne.
  rewrite (listed_by_name request db n) by (apply truthy_Some; now split).
  unfold listed, ok_listing; simpl.
  rewrite (filter_ext (has_name n)
             (fun p => if option_string_dec (name p) (Some n) then true else false));
    [reflexivity|].
  intros p. unfold has_name.
  destruct (option_string_dec (name p) (Some n)) as [->|Hother].
  - apply String.eqb_refl.
  - destruct (name p) as [s|]; [|reflexivity].
    apply String.eqb_neq. congruence.
Qed.

(* ------------------------------------------------------------------ *)
(** ** The guard, on its own *)

(** X1: [check_content_type] lets a request pass exactly when its
    Content-Type header is the expected string, character for character;
    it then does nothing at all.  Otherwise it aborts with 415, naming the
    expected type, after one error log line.  It never touches the store. *)
Theorem X1_check_content_type_is_exact
    (request : Request) (content_type : string) (db : Store) :
  store (check_content_type request content_type db) = db /\
  (outcome (check_content_type request content_type db) = Returned tt <->
   assoc "Content-Type" (headers request) = Some content_type) /\
  (assoc "Content-Type" (headers request) = Some content_type ->
   events (check_content_type request content_type db) = []) /\
  (assoc "Content-Type" (headers request) <> Some content_type ->
   outcome (check_content_type request content_type db) =
   Aborted 415 ("Content-Type must be " ++ content_type) /\
   exists format args,
     events (check_content_type request content_type db) = [EvLog ERROR format args]).
Proof.
  destruct (content_type_cases request content_type) as [Hok|Hbad].
  - rewrite (check_content_type_accepts request content_type db Hok).
    split; [reflexivity|]. split; [split; trivial|].
    split; [reflexivity|]. intros Hne. contradiction.
  - rewrite (check_content_type_rejects request content_type db Hbad).
    split; [reflexivity|]. split; [split; [discriminate|contradiction]|].
    split; [contradiction|]. intros _. split; [reflexivity|].
    unfold content_type_complaint.
    destruct (assoc "Content-Type" (headers request));
      do 2 eexists; reflexivity.
Qed.

(* ------------------------------------------------------------------ *)
(** ** Requests that only read *)

Lemma listed_writes db format args call products :
  is_write call = false ->
  forallb (fun c => negb (is_write c))
          (db_calls (events (listed db [EvLog INFO format args; EvDb call] products))) = true.
Proof. intros Hread. simpl. now rewrite Hread. Qed.

(** X2: GET /health, GET /products and GET /products/{id} only read: for
    every request and every store, however the handler leaves (also by an
    exception), the store is the one it started from and no create, update
    or delete call was made. *)
Theorem X2_get_requests_only_read (request : Request) (product_id : Z) (db : Store) :
  (store (healthcheck db) = db /\
   db_calls (events (healthcheck db)) = []) /\
  (store (get_all_products request db) = db /\
   forallb (fun c => negb (is_write c))
           (db_calls (events (get_all_products request db))) = true) /\
  (store (get_product product_id db) = db /\
   forallb (fun c => negb (is_write c))
           (db_calls (events (get_product product_id db))) = true).
Proof.
  split; [split; reflexivity|]. split.
  - split; [apply get_all_products_store|].
    destruct (truthy (args_get request "name")) as [n|] eqn:Hname.
    { rewrite (listed_by_name request db n Hname). now apply listed_writes. }
    destruct (truthy (args_get request "category")) as [c|] eqn:Hcat.
    { destruct (getattr_Category (str_upper c)) as [e|member] eqn:Hget.
      - now rewrite (unknown_category_raises request db c e Hname Hcat Hget).
      - rewrite (listed_by_category request db c member Hname Hcat Hget).
        now apply listed_writes. }
    destruct (truthy (args_get request "available")) as [v|] eqn:Havail.
    { rewrite (listed_by_availability request db v Hname Hcat Havail).
      now apply listed_writes. }
    rewrite (listed_all request db Hname Hcat Havail). now apply listed_writes.
  - split; [apply get_product_run|].
    unfold get_product.
    rewrite (bind_returned _ _ _ _ _ _ (Product_find_run product_id db)).
    destruct (row_of db product_id); reflexivity.
Qed.

(* ------------------------------------------------------------------ *)
(** ** When a listing does not reach the store *)

Lemma getattr_Category_inl s e :
  getattr_Category s = inl e ->
  e = AttributeError s /\
  forall member, In member Category_members -> Category_name member <> s.
Proof.
  unfold getattr_Category.
  destruct (find _ Category_members) eqn:Hfind; [discriminate|].
  intros [= <-]. split; [reflexivity|].
  intros member Hin. apply (find_none _ _ Hfind) in Hin. now apply String.eqb_neq.
Qed.

(** X3: GET /products ends without a single data-access call exactly when
    [name] is absent or empty and [category] is a non-empty string whose
    upper-casing names no member of Category; it then leaves by the
    [AttributeError] of the lookup, with the store as it was. *)
Theorem X3_listing_skips_the_store_only_on_unknown_category
    (request : Request) (db : Store) :
  (db_calls (events (get_all_products request db)) = [] <->
   (args_get request "name" = None \/ args_get request "name" = Some "") /\
   exists c,
     args_get request "category" = Some c /\
     c <> "" /\
     forall member, In member Category_members -> Category_name member <> str_upper c) /\
  (db_calls (events (get_all_products request db)) = [] ->
   exists a,
     outcome (get_all_products request db) = Raised (AttributeError a) /\
     store (get_all_products request db) = db).
Proof.
  destruct (truthy (args_get request "name")) as [n|] eqn:Hname.
  { rewrite (listed_by_name request db n Hname). simpl.
    split; [|discriminate]. split; [discriminate|].
    intros [Hfalsy _]. apply truthy_None in Hfalsy. congruence. }
  pose proof (proj1 (truthy_None _) Hname) as Hname'.
  destruct (truthy (args_get request "category")) as [c|] eqn:Hcat.
  { apply truthy_Some in Hcat as Hcat'. destruct Hcat' as [Hc Hne].
    destruct (getattr_Category (str_upper c)) as [e|member] eqn:Hget.
    - rewrite (unknown_category_raises request db c e Hname Hcat Hget). simpl.
      apply getattr_Category_inl in Hget. destruct Hget as [-> Hunknown].
      split.
      + split; [|reflexivity]. intros _. split; [exact Hname'|]. now exists c.
      + intros _. now eexists.
    - rewrite (listed_by_category request db c member Hname Hcat Hget). simpl.
      split; [|discriminate]. split; [discriminate|].
      intros [_ (c' & Hc' & _ & Hunknown)].
      rewrite Hc in Hc'. injection Hc' as <-.
      apply getattr_Category_inr in Hget. destruct Hget as [Hin Hmember].
      now apply Hunknown in Hin. }
  pose proof (proj1 (truthy_None _) Hcat) as Hcat'.
  assert (Hnot : ~ exists c,
             args_get request "category" = Some c /\ c <> "" /\
             forall member, In member Category_members ->
                            Category_name member <> str_upper c).
  { intros (c & Hc & Hne & _). destruct Hcat' as [Hnone|Hempty]; congruence. }
  destruct (truthy (args_get request "available")) as [v|] eqn:Havail.
  { rewrite (listed_by_availability request db v Hname Hcat Havail). simpl.
    split; [|discriminate]. split; [discriminate|]. intros [_ Hex]. contradiction. }
  rewrite (listed_all request db Hname Hcat Havail). simpl.
  split; [|discriminate]. split; [discriminate|]. intros [_ Hex]. contradiction.
Qed.

(** X4: the listing queries by category only when [name] is absent or empty
    and [category] is non-empty, and then for the name that is the
    upper-casing of the parameter: a member is never selected under another
    spelling of its name. *)
Theorem X4_category_query_is_for_the_upper_cased_parameter
    (request : Request) (db : Store) (n : string) :
  In (CallFindByCategory n) (db_calls (events (get_all_products request db))) ->
  (args_get request "name" = None \/ args_get request "name" = Some "") /\
  exists c,
    args_get request "category" = Some c /\ c <> "" /\ n = str_upper c.
Proof.
  destruct (truthy (args_get request "name")) as [m|] eqn:Hname.
  { rewrite (listed_by_name request db m Hname). simpl. intros [[=]|[]]. }
  destruct (truthy (args_get request "category")) as [c|] eqn:Hcat.
  { destruct (getattr_Category (str_upper c)) as [e|member] eqn:Hget.
    - rewrite (unknown_category_raises request db c e Hname Hcat Hget). intros [].
    - rewrite (listed_by_category request db c member Hname Hcat Hget). simpl.
      intros [[= <-]|[]].
      apply getattr_Category_inr in Hget. destruct Hget as [_ Hmember].
      apply truthy_Some in Hcat. destruct Hcat as [Hc Hne].
      split; [now apply truthy_None|]. now exists c. }
  destruct (truthy (args_get request "available")) as [v|] eqn:Havail.
  { rewrite (listed_by_availability request db v Hname Hcat Havail). simpl.
    intros [[=]|[]]. }
  rewrite (listed_all request db Hname Hcat Havail). simpl. intros [[=]|[]].
Qed.

(* ------------------------------------------------------------------ *)
(** ** All or nothing *)

Lemma create_products_rejected request db :
  assoc "Content-Type" (headers request) <> Some "application/json" ->
  create_products request db =
  mkRun (Aborted 415 "Content-Type must be application/json") db
        [EvLog INFO "Request to Create a Product..." []; content_type_complaint request].
Proof.
  intros Hct. unfold create_products.
  erewrite bind_returned by reflexivity.
  now erewrite bind_aborted by (apply check_content_type_rejects; exact Hct).
Qed.

Lemma create_products_undecodable request db :
  assoc "Content-Type" (headers request) = Some "application/json" ->
  json request = None ->
  create_products request db =
  mkRun (Aborted 400 bad_request_description) db
        [EvLog INFO "Request to Create a Product..." []; EvGetJson].
Proof.
  intros Hct Hjson. unfold create_products.
  erewrite bind_returned by reflexivity.
  erewrite bind_returned by (apply check_content_type_accepts; exact Hct).
  unfold get_json, bind. simpl. now rewrite Hjson.
Qed.

Lemma create_products_invalid request db data e :
  assoc "Content-Type" (headers request) = Some "application/json" ->
  json request = Some data ->
  deserialize Product_new data = inl e ->
  create_products request db =
  mkRun (Raised e) db
        [EvLog INFO "Request to Create a Product..." []; EvGetJson;
         EvLog INFO "Processing: %s" [data]].
Proof.
  intros Hct Hjson Hdata. unfold create_products.
  erewrite bind_returned by reflexivity.
  erewrite bind_returned by (apply check_content_type_accepts; exact Hct).
  erewrite bind_returned by (apply get_json_run; exact Hjson).
  erewrite bind_returned by reflexivity.
  rewrite Hdata. reflexivity.
Qed.

Lemma create_products_created request db data product :
  assoc "Content-Type" (headers request) = Some "application/json" ->
  json request = Some data ->
  deserialize Product_new data = inr product ->
  create_products request db =
  mkRun (Returned (BodyJson (serialize (set_id product (Some (next_id db)))),
                   201, [("Location", "/")]))
        (mkStore (rows db ++ [set_id product (Some (next_id db))]) (next_id db + 1))
        [EvLog INFO "Request to Create a Product..." []; EvGetJson;
         EvLog INFO "Processing: %s" [data]; EvDb CallCreate;
         EvLog INFO "Product with new id [%s] saved!" [JInt (next_id db)]].
Proof.
  intros Hct Hjson Hdata. unfold create_products.
  erewrite bind_returned by reflexivity.
  erewrite bind_returned by (apply check_content_type_accepts; exact Hct).
  erewrite bind_returned by (apply get_json_run; exact Hjson).
  erewrite bind_returned by reflexivity.
  rewrite Hdata. reflexivity.
Qed.

(** X5: a POST writes only on its way to 201.  When it returns, the answer
    is 201 with the header [Location: /] and the serialized product, and
    exactly one row, that product under the store's next id, was appended
    by one create call.  When the guard rejects it, or its body is not JSON,
    or the body does not deserialize, it does not return, the store is the
    one it started from and no data-access call was made. *)
Theorem X5_post_writes_only_on_its_way_to_201 (request : Request) (db : Store) :
  (forall response,
     outcome (create_products request db) = Returned response ->
     exists product,
       response = (BodyJson (serialize product), 201, [("Location", "/")]) /\
       id product = Some (next_id db) /\
       store (create_products request db) =
       mkStore (rows db ++ [product]) (next_id db + 1) /\
       db_calls (events (create_products request db)) = [CallCreate]) /\
  (assoc "Content-Type" (headers request) <> Some "application/json" \/
   json request = None \/
   (exists data e, json request = Some data /\ deserialize Product_new data = inl e) ->
   (forall response, outcome (create_products request db) <> Returned response) /\
   store (create_products request db) = db /\
   db_calls (events (create_products request db)) = []).
Proof.
  assert (Hrejected :
            assoc "Content-Type" (headers request) <> Some "application/json" ->
            (forall response, outcome (create_products request db) <> Returned response) /\
            store (create_products request db) = db /\
            db_calls (events (create_products request db)) = []).
  { intros Hct. rewrite (create_products_rejected request db Hct).
    split; [discriminate|]. split; [reflexivity|].
    unfold content_type_complaint.
    destruct (assoc "Content-Type" (headers request)); reflexivity. }
  destruct (content_type_cases request "application/json") as [Hct|Hct].
  - destruct (json request) as [data|] eqn:Hjson.
    + destruct (deserialize Product_new data) as [e|product] eqn:Hdata.
      * rewrite (create_products_invalid request db data e Hct Hjson Hdata).
        split; [discriminate|]. intros _.
        split; [discriminate|]. split; reflexivity.
      * rewrite (create_products_created request db data product Hct Hjson Hdata).
        split.
        -- intros response [= <-]. exists (set_id product (Some (next_id db))).
           repeat split.
        -- intros [Hbad|[Hnone|(data' & e & Hsome & Hfails)]];
             [contradiction|discriminate|].
           injection Hsome as <-. congruence.
    + rewrite (create_products_undecodable request db Hct Hjson).
      split; [discriminate|]. intros _.
      split; [discriminate|]. split; reflexivity.
  - destruct (Hrejected Hct) as (Hnot & Hstore & Hcalls).
    split; [|intros _; now split].
    intros response Hret. now apply Hnot in Hret.
Qed.

(* ------------------------------------------------------------------ *)
(** ** The runs of an update *)

Lemma update_product_rejected request product_id db :
  assoc "Content-Type" (headers request) <> Some "application/json" ->
  update_product request product_id db =
  mkRun (Aborted 415 "Content-Type must be application/json") db
        [content_type_complaint request].
Proof.
  intros Hct. unfold update_product.
  now erewrite bind_aborted by (apply check_content_type_rejects; exact Hct).
Qed.

Lemma update_product_absent request product_id db :
  assoc "Content-Type" (headers request) = Some "application/json" ->
  row_of db product_id = None ->
  update_product request product_id db =
  mkRun (Aborted 404 (not_found product_id)) db [EvDb (CallFind product_id)].
Proof.
  intros Hct Habsent. unfold update_product.
  erewrite bind_returned by (apply check_content_type_accepts; exact Hct).
  erewrite bind_returned by apply Product_find_run.
  rewrite Habsent. reflexivity.
Qed.

Lemma update_product_undecodable request product_id db found :
  assoc "Content-Type" (headers request) = Some "application/json" ->
  row_of db product_id = Some found ->
  json request = None ->
  update_product request product_id db =
  mkRun (Aborted 400 bad_request_description) db
        [EvDb (CallFind product_id); update_attempt found; EvGetJson].
Proof.
  intros Hct Hfound Hjson. unfold update_product.
  erewrite bind_returned by (apply check_content_type_accepts; exact Hct).
  erewrite bind_returned by apply Product_find_run.
  rewrite Hfound.
  erewrite bind_returned by reflexivity.
  unfold get_json, bind. simpl. now rewrite Hjson.
Qed.

Lemma update_product_invalid request product_id db found data e :
  assoc "Content-Type" (headers request) = Some "application/json" ->
  row_of db product_id = Some found ->
  json request = Some data ->
  deserialize Product_new data = inl e ->
  update_product request product_id db =
  mkRun (Raised e) db [EvDb (CallFind product_id); update_attempt found; EvGetJson].
Proof.
  intros Hct Hfound Hjson Hdata. unfold update_product.
  erewrite bind_returned by (apply check_content_type_accepts; exact Hct).
  erewrite bind_returned by apply Product_find_run.
  rewrite Hfound.
  erewrite bind_returned by reflexivity.
  erewrite bind_returned by (apply get_json_run; exact Hjson).
  rewrite deserialize_onto, Hdata. reflexivity.
Qed.

Lemma update_product_updated request product_id db found data product :
  assoc "Content-Type" (headers request) = Some "application/json" ->
  row_of db product_id = Some found ->
  json request = Some data ->
  deserialize Product_new data = inr product ->
  update_product request product_id db =
  mkRun (Returned (BodyJson (serialize (set_id product (Some product_id))), 200, []))
        (mkStore (overwritten product_id (set_id product (Some product_id)) (rows db))
                 (next_id db))
        [EvDb (CallFind product_id); update_attempt found; EvGetJson; EvDb CallUpdate].
Proof.
  intros Hct Hfound Hjson Hdata. unfold update_product.
  erewrite bind_returned by (apply check_content_type_accepts; exact Hct).
  erewrite bind_returned by apply Product_find_run.
  rewrite Hfound.
  erewrite bind_returned by reflexivity.
  erewrite bind_returned by (apply get_json_run; exact Hjson).
  rewrite deserialize_onto, Hdata. reflexivity.
Qed.

(** An update either leaves the store as it was and does not return, or
    runs to its end on a body that deserializes. *)
Lemma update_product_cases request product_id db :
  (store (update_product request product_id db) = db /\
   forall response, outcome (update_product request product_id db) <> Returned response)
  \/
  (exists found data product,
     assoc "Content-Type" (headers request) = Some "application/json" /\
     row_of db product_id = Some found /\
     json request = Some data /\
     deserialize Product_new data = inr product).
Proof.
  destruct (content_type_cases request "application/json") as [Hct|Hct].
  - destruct (row_of db product_id) as [found|] eqn:Hfound.
    + destruct (json request) as [data|] eqn:Hjson.
      * destruct (deserialize Product_new data) as [e|product] eqn:Hdata.
        -- left. rewrite (update_product_invalid _ _ _ _ _ _ Hct Hfound Hjson Hdata).
           split; [reflexivity|discriminate].
        -- right. now exists found, data, product.
      * left. rewrite (update_product_undecodable _ _ _ _ Hct Hfound Hjson).
        split; [reflexivity|discriminate].
    + left. rewrite (update_product_absent _ _ _ Hct Hfound).
      split; [reflexivity|discriminate].
  - left. rewrite (update_product_rejected _ _ _ Hct).
    split; [reflexivity|discriminate].
Qed.

(** X6: a PUT with JSON content type to an id that no product has is
    answered 404 after the lookup alone: the body is never decoded, so the
    answer is 404 whatever the body is, also when it is not JSON at all, and
    the store is unchanged. *)
Theorem X6_put_to_absent_id_is_404_whatever_the_body
    (request : Request) (product_id : Z) (db : Store) :
  assoc "Content-Type" (headers request) = Some "application/json" ->
  row_of db product_id = None ->
  outcome (update_product request product_id db) = Aborted 404 (not_found product_id) /\
  store (update_product request product_id db) = db /\
  events (update_product request product_id db) = [EvDb (CallFind product_id)] /\
  ~ In EvGetJson (events (update_product request product_id db)).
Proof.
  intros Hct Habsent. rewrite (update_product_absent request product_id db Hct Habsent).
  repeat split. simpl. intros [[=]|[]].
Qed.

Lemma overwritten_length product_id stored l :
  List.length (overwritten product_id stored l) = List.length l.
Proof. apply length_map. Qed.

(** X7: a PUT never adds or removes a product and never moves the next id:
    for every request, whatever its outcome, the table has as many rows as
    before, the next id is the same, and every row of another id is as it
    was. *)
Theorem X7_put_keeps_the_shape_of_the_table
    (request : Request) (product_id : Z) (db : Store) :
  List.length (rows (store (update_product request product_id db))) = List.length (rows db) /\
  next_id (store (update_product request product_id db)) = next_id db /\
  (forall other, other <> product_id ->
     row_of (store (update_product request product_id db)) other = row_of db other).
Proof.
  destruct (update_product_cases request product_id db)
    as [[-> _]|(found & data & product & Hct & Hfound & Hjson & Hdata)].
  - repeat split.
  - rewrite (update_product_updated _ _ _ _ _ _ Hct Hfound Hjson Hdata). simpl.
    split; [apply overwritten_length|]. split; [reflexivity|].
    intros other Hne. unfold row_of, overwritten; simpl.
    now apply find_other_after_update.
Qed.

Lemma overwritten_twice product_id stored l :
  id stored = Some product_id ->
  overwritten product_id stored (overwritten product_id stored l) =
  overwritten product_id stored l.
Proof.
  intros Hid. apply has_id_true in Hid. unfold overwritten.
  rewrite map_map. apply map_ext. intros row.
  destruct (has_id product_id row) eqn:Hrow.
  - now rewrite Hid.
  - now rewrite Hrow.
Qed.

Lemma row_of_overwritten product_id stored db found :
  id stored = Some product_id ->
  row_of db product_id = Some found ->
  row_of (mkStore (overwritten product_id stored (rows db)) (next_id db)) product_id =
  Some stored.
Proof.
  intros Hid Hfound. unfold row_of, overwritten; simpl.
  now apply (find_after_update product_id stored (rows db) found).
Qed.

(** X8: PUT is idempotent.  Sending the same PUT a second time, right after
    the first, gets the same answer as the first and leaves the store the
    first one left; this holds for every request, whether the first PUT
    succeeded or not. *)
Theorem X8_put_is_idempotent (request : Request) (product_id : Z) (db : Store) :
  outcome (update_product request product_id
             (store (update_product request product_id db))) =
  outcome (update_product request product_id db) /\
  store (update_product request product_id
           (store (update_product request product_id db))) =
  store (update_product request product_id db).
Proof.
  destruct (update_product_cases request product_id db)
    as [[Hsame _]|(found & data & product & Hct & Hfound & Hjson & Hdata)].
  - rewrite Hsame. split; [reflexivity|exact Hsame].
  - rewrite (update_product_updated _ _ _ _ _ _ Hct Hfound Hjson Hdata).
    cbn [outcome store].
    assert (Hstored : row_of (mkStore (overwritten product_id
                                         (set_id product (Some product_id)) (rows db))
                                      (next_id db)) product_id =
                      Some (set_id product (Some product_id)))
      by now apply (row_of_overwritten product_id _ db found).
    rewrite (update_product_updated _ _ _ _ _ _ Hct Hstored Hjson Hdata).
    cbn [outcome store rows next_id].
    split; [reflexivity|]. f_equal. now apply overwritten_twice.
Qed.

(** X9: what a PUT returns is what a GET of the same id returns right
    after it: the same document, with 200. *)
Theorem X9_get_after_put_returns_the_same_document
    (request : Request) (product_id : Z) (db : Store) (response : Response) :
  outcome (update_product request product_id db) = Returned response ->
  outcome (get_product product_id (store (update_product request product_id db))) =
  Returned response.
Proof.
  destruct (update_product_cases request product_id db)
    as [[_ Hnot]|(found & data & product & Hct & Hfound & Hjson & Hdata)].
  - intros Hret. now apply Hnot in Hret.
  - rewrite (update_product_updated _ _ _ _ _ _ Hct Hfound Hjson Hdata).
    cbn [outcome store]. intros [= <-].
    destruct (get_product_run product_id
                (mkStore (overwritten product_id (set_id product (Some product_id)) (rows db))
                         (next_id db))) as [_ ->].
    now rewrite (row_of_overwritten product_id _ db found).
Qed.

(* ------------------------------------------------------------------ *)
(** ** Deleting twice, creating and deleting *)

Lemma delete_product_absent product_id db :
  row_of db product_id = None ->
  delete_product product_id db =
  mkRun (Aborted 404 (not_found_for_delete product_id)) db [EvDb (CallFind product_id)].
Proof.
  intros Habsent. unfold delete_product.
  rewrite (bind_returned _ _ _ _ _ _ (Product_find_run product_id db)).
  now rewrite Habsent.
Qed.

Lemma row_of_after_delete product_id db :
  row_of (store (delete_product product_id db)) product_id = None.
Proof.
  rewrite delete_product_store.
  destruct (row_of db product_id) eqn:Hfound; [|exact Hfound].
  apply find_after_delete.
Qed.

(** X10: DELETE is not idempotent in its answer.  Whatever the first
    DELETE of an id did, a second one right after it is answered 404 and
    changes nothing. *)
Theorem X10_second_delete_is_404 (product_id : Z) (db : Store) :
  outcome (delete_product product_id (store (delete_product product_id db))) =
  Aborted 404 (not_found_for_delete product_id) /\
  store (delete_product product_id (store (delete_product product_id db))) =
  store (delete_product product_id db).
Proof.
  rewrite (delete_product_absent product_id _ (row_of_after_delete product_id db)).
  split; reflexivity.
Qed.

(** A POST either does not return and leaves the store as it was, or runs
    to its end on a body that deserializes. *)
Lemma create_products_cases request db :
  (store (create_products request db) = db /\
   forall response, outcome (create_products request db) <> Returned response)
  \/
  (exists data product,
     assoc "Content-Type" (headers request) = Some "application/json" /\
     json request = Some data /\
     deserialize Product_new data = inr product).
Proof.
  destruct (content_type_cases request "application/json") as [Hct|Hct].
  - destruct (json request) as [data|] eqn:Hjson.
    + destruct (deserialize Product_new data) as [e|product] eqn:Hdata.
      * left. rewrite (create_products_invalid request db data e Hct Hjson Hdata).
        split; [reflexivity|discriminate].
      * right. now exists data, product.
    + left. rewrite (create_products_undecodable request db Hct Hjson).
      split; [reflexivity|discriminate].
  - left. rewrite (create_products_rejected request db Hct).
    split; [reflexivity|discriminate].
Qed.

Lemma next_id_is_free db :
  ids_assigned db -> row_of db (next_id db) = None.
Proof.
  intros Hids. destruct (row_of db (next_id db)) as [found|] eqn:Hfound; [|reflexivity].
  apply Hids in Hfound. lia.
Qed.

Lemma filter_keeps_all {A : Type} (f : A -> bool) l :
  (forall a, In a l -> f a = true) -> filter f l = l.
Proof.
  induction l as [|a l IH]; simpl; intros Hall; [reflexivity|].
  rewrite (Hall a) by now left. f_equal. apply IH. intros b Hb. apply Hall. now right.
Qed.

(** X11: a product that a POST created can be read back at once under the
    store's next id: the GET returns the document the POST returned, with
    200, in every store whose ids were assigned by the store. *)
Theorem X11_get_after_post_returns_the_created_document
    (request : Request) (db : Store)
    (body : Body) (status : Z) (response_headers : list (string * string)) :
  ids_assigned db ->
  outcome (create_products request db) = Returned (body, status, response_headers) ->
  outcome (get_product (next_id db) (store (create_products request db))) =
  Returned (body, 200, []).
Proof.
  intros Hids.
  destruct (create_products_cases request db)
    as [[_ Hnot]|(data & product & Hct & Hjson & Hdata)].
  - intros Hret. now apply Hnot in Hret.
  - rewrite (create_products_created request db data product Hct Hjson Hdata).
    cbn [outcome store]. intros [= <- _ _].
    destruct (get_product_run (next_id db)
                (mkStore (rows db ++ [set_id product (Some (next_id db))])
                         (next_id db + 1))) as [_ ->].
    rewrite row_of_created, (next_id_is_free db Hids).
    now rewrite Z.eqb_refl.
Qed.

(** X12: deleting the product a POST has just created undoes the POST on
    the rows: the DELETE is answered 204 and the table holds exactly the
    rows it held before the POST; only the next id has moved on. *)
Theorem X12_delete_after_post_restores_the_rows
    (request : Request) (db : Store) (response : Response) :
  ids_assigned db ->
  outcome (create_products request db) = Returned response ->
  outcome (delete_product (next_id db) (store (create_products request db))) =
  Returned (BodyText "", 204, []) /\
  rows (store (delete_product (next_id db) (store (create_products request db)))) =
  rows db /\
  next_id (store (delete_product (next_id db) (store (create_products request db)))) =
  next_id db + 1.
Proof.
  intros Hids.
  destruct (create_products_cases request db)
    as [[_ Hnot]|(data & product & Hct & Hjson & Hdata)].
  - intros Hret. now apply Hnot in Hret.
  - intros _.
    rewrite (create_products_created request db data product Hct Hjson Hdata).
    cbn [outcome store].
    set (created := set_id product (Some (next_id db))).
    set (db1 := mkStore (rows db ++ [created]) (next_id db + 1)).
    assert (Hrow : row_of db1 (next_id db) = Some created).
    { unfold db1, created. rewrite row_of_created, (next_id_is_free db Hids).
      now rewrite Z.eqb_refl. }
    split; [|split].
    + unfold delete_product.
      rewrite (bind_returned _ _ _ _ _ _ (Product_find_run (next_id db) db1)).
      now rewrite Hrow.
    + rewrite delete_product_store, Hrow. cbn [rows db1].
      rewrite filter_app. simpl.
      replace (has_id (next_id db) created) with true
        by (symmetry; now apply has_id_true).
      simpl. rewrite app_nil_r. apply filter_keeps_all.
      intros row Hin.
      pose proof (proj1 (row_of_None db (next_id db)) (next_id_is_free db Hids) row Hin)
        as Hother.
      destruct (has_id (next_id db) row) eqn:Hrow'; [|reflexivity].
      apply has_id_true in Hrow'. contradiction.
    + rewrite delete_product_store, Hrow. reflexivity.
Qed.

(* ------------------------------------------------------------------ *)
(** ** Ids stay unique *)

Lemma NoDup_snoc {A : Type} (l : list A) x :
  NoDup l -> ~ In x l -> NoDup (l ++ [x]).
Proof.
  induction l as [|a l IH]; simpl; intros Hnodup Hout.
  - constructor; [intros []|constructor].
  - inversion Hnodup as [|? ? Ha Hl]; subst. constructor.
    + rewrite in_app_iff. simpl. intros [Hin|[->|[]]]; [contradiction|].
      apply Hout. now left.
    + apply IH; [exact Hl|]. intros Hin. apply Hout. now right.
Qed.

Lemma NoDup_map_filter {A B : Type} (g : A -> B) (f : A -> bool) l :
  NoDup (map g l) -> NoDup (map g (filter f l)).
Proof.
  induction l as [|a l IH]; simpl; intros Hnodup; [constructor|].
  inversion Hnodup as [|? ? Ha Hl]; subst.
  destruct (f a); simpl; [|now apply IH].
  constructor; [|now apply IH].
  intros Hin. apply Ha. apply in_map_iff in Hin. destruct Hin as (b & Hb & Hin).
  apply filter_In in Hin. apply in_map_iff. exists b. tauto.
Qed.

Lemma ids_overwritten product_id stored l :
  id stored = Some product_id ->
  map id (overwritten product_id stored l) = map id l.
Proof.
  intros Hid. unfold overwritten. rewrite map_map. apply map_ext. intros row.
  destruct (has_id product_id row) eqn:Hrow; [|reflexivity].
  apply has_id_true in Hrow. congruence.
Qed.

Lemma well_formed_created db product :
  well_formed db ->
  well_formed (mkStore (rows db ++ [set_id product (Some (next_id db))]) (next_id db + 1)).
Proof.
  intros [Hnodup Hbelow]. split.
  - unfold ids in *. simpl. rewrite map_app. simpl. apply NoDup_snoc; [exact Hnodup|].
    intros Hin. apply in_map_iff in Hin. destruct Hin as (row & Hid & Hin).
    rewrite Forall_forall in Hbelow. destruct (Hbelow row Hin) as (i & Hi & Hlt).
    rewrite Hid in Hi. injection Hi as <-. lia.
  - simpl. apply Forall_app. split.
    + apply (Forall_impl _ (P := fun row => exists i, id row = Some i /\ i < next_id db));
        [|exact Hbelow].
      intros row (i & Hi & Hlt). exists i. split; [exact Hi|lia].
    + constructor; [|constructor]. exists (next_id db). split; [reflexivity|lia].
Qed.

Lemma well_formed_overwritten db product_id stored :
  id stored = Some product_id ->
  well_formed db ->
  well_formed (mkStore (overwritten product_id stored (rows db)) (next_id db)).
Proof.
  intros Hid [Hnodup Hbelow]. split.
  - unfold ids in *. simpl. now rewrite ids_overwritten.
  - simpl. unfold overwritten. apply Forall_map.
    apply (Forall_impl _ (P := fun row => exists i, id row = Some i /\ i < next_id db));
      [|exact Hbelow].
    intros row (i & Hi & Hlt).
    destruct (has_id product_id row) eqn:Hrow; [|now exists i].
    apply has_id_true in Hrow. exists i. split; [congruence|exact Hlt].
Qed.

Lemma well_formed_filtered db (f : Product -> bool) :
  well_formed db ->
  well_formed (mkStore (filter f (rows db)) (next_id db)).
Proof.
  intros [Hnodup Hbelow]. split.
  - unfold ids in *. simpl. now apply NoDup_map_filter.
  - simpl. rewrite Forall_forall in *. intros row Hin.
    apply filter_In in Hin. now apply Hbelow.
Qed.

Lemma serve_keeps_well_formed call db :
  well_formed db -> well_formed (store (serve call db)).
Proof.
  intros Hwf. destruct call as [|request|request|q|request q|q]; cbn [serve].
  - exact Hwf.
  - destruct (create_products_store request db) as [->|[product ->]]; [exact Hwf|].
    now apply well_formed_created.
  - now rewrite get_all_products_store.
  - now destruct (get_product_run q db) as [-> _].
  - destruct (update_product_store request q db)
      as [->|(found & stored & _ & Hid & ->)]; [exact Hwf|].
    now apply (well_formed_overwritten db q stored).
  - rewrite delete_product_store.
    destruct (row_of db q); [|exact Hwf].
    now apply well_formed_filtered.
Qed.

(** The service keeps its table well formed.  A request of any route,
    with any outcome, takes a store in which every row has an id below the
    next id and no two rows share an id to a store of the same kind; so
    after any sequence of requests since the service started with an empty
    table, ids are unique. *)
Lemma well_formed_since_start (calls : list Call) :
  (forall db, well_formed db -> well_formed (serve_all calls db)) /\
  well_formed (serve_all calls empty_store) /\
  NoDup (ids (serve_all calls empty_store)).
Proof.
  assert (Hall : forall db, well_formed db -> well_formed (serve_all calls db)).
  { induction calls as [|call calls IH]; intros db Hwf; simpl; [exact Hwf|].
    apply IH. now apply serve_keeps_well_formed. }
  assert (Hstart : well_formed empty_store).
  { split; constructor. }
  split; [exact Hall|]. split; [now apply Hall|]. now apply Hall.
Qed.

Lemma delete_removes_one product_id l :
  NoDup (map id l) ->
  (exists found, find (has_id product_id) l = Some found) ->
  S (List.length (filter (fun row => negb (has_id product_id row)) l)) = List.length l.
Proof.
  induction l as [|row l IH]; simpl; intros Hnodup [found Hfound]; [discriminate|].
  inversion Hnodup as [|? ? Hrow Hl]; subst.
  destruct (has_id product_id row) eqn:Hid; simpl.
  - f_equal. f_equal. apply filter_keeps_all. intros other Hin.
    destruct (has_id product_id other) eqn:Hother; [|reflexivity].
    apply has_id_true in Hid. apply has_id_true in Hother.
    exfalso. apply Hrow. rewrite Hid, <- Hother. now apply in_map.
  - f_equal. apply IH; [exact Hl|]. now exists found.
Qed.

(** X14: in a well-formed table a DELETE that is answered 204 removes
    exactly one row, and a DELETE that is answered otherwise removes none;
    the next id never moves. *)
Theorem X14_delete_removes_exactly_one_row (product_id : Z) (db : Store) :
  well_formed db ->
  next_id (store (delete_product product_id db)) = next_id db /\
  match row_of db product_id with
  | Some _ =>
      outcome (delete_product product_id db) = Returned (BodyText "", 204, []) /\
      S (List.length (rows (store (delete_product product_id db)))) = List.length (rows db)
  | None =>
      outcome (delete_product product_id db) =
      Aborted 404 (not_found_for_delete product_id) /\
      rows (store (delete_product product_id db)) = rows db
  end.
Proof.
  intros [Hnodup _]. rewrite delete_product_store.
  destruct (row_of db product_id) as [found|] eqn:Hfound.
  - split; [reflexivity|]. split.
    + unfold delete_product.
      rewrite (bind_returned _ _ _ _ _ _ (Product_find_run product_id db)).
      now rewrite Hfound.
    + cbn [rows]. apply delete_removes_one; [exact Hnodup|]. now exists found.
  - split; [reflexivity|].
    rewrite (delete_product_absent product_id db Hfound). split; reflexivity.
Qed.

End Properties.

(* ================================================================== *)
(** * The theorems at work on the sample shop *)
(* ================================================================== *)

(** C1 at a POST with [Content-Type: text/plain] and at a PUT with no
    Content-Type header at all. *)
Lemma C1_wrong_content_type_is_415_witness :
  rejected_unsupported_media_type shop (create_products (text_request pear_json) shop) /\
  rejected_unsupported_media_type shop
    (update_product (mkRequest [] [] (Some pear_json)) 2 shop).
Proof.
  split.
  - apply (C1_wrong_content_type_is_415 (text_request pear_json) 2 shop). discriminate.
  - apply (C1_wrong_content_type_is_415 (mkRequest [] [] (Some pear_json)) 2 shop).
    discriminate.
Defined.

(** C2 as first stated fails at [PUT /products/2] with JSON content type
    and the body [{}]: the product exists, yet the handler does not answer
    200 (the deserialization raises) and the apple keeps its attributes. *)
Lemma C2_empty_body_counterexample :
  assoc "Content-Type" (headers (json_request (JDict []))) = Some "application/json" /\
  row_of shop 2 = Some apple /\
  outcome (update_product (json_request (JDict [])) 2 shop) = Raised DataValidationError /\
  row_of (store (update_product (json_request (JDict [])) 2 shop)) 2 = Some apple /\
  ~ (exists body, outcome (update_product (json_request (JDict [])) 2 shop) =
                  Returned (body, 200, [])).
Proof.
  split; [reflexivity|]. split; [reflexivity|]. split; [reflexivity|].
  split; [reflexivity|]. intros [body Hbody]. discriminate Hbody.
Qed.

(** C2 (amended) at [PUT /products/2] with a body that claims the id 999:
    the body deserializes into the pear with id 999, and the row stored
    under 2 is the pear with id 2; no row appears under 999. *)
Lemma C2_update_keeps_path_id_witness :
  deserialize Product_new pear_json = inr (set_id pear (Some 999)) /\
  outcome (update_product (json_request pear_json) 2 shop) =
  Returned (BodyJson (serialize (set_id pear (Some 2))), 200, []) /\
  row_of (store (update_product (json_request pear_json) 2 shop)) 2 =
  Some (set_id pear (Some 2)) /\
  id (set_id pear (Some 2)) = Some 2 /\
  describes pear_json (set_id pear (Some 2)) /\
  row_of (store (update_product (json_request pear_json) 2 shop)) 999 = None.
Proof.
  destruct (C2_update_keeps_path_id (json_request pear_json) 2 shop apple pear_json
              (set_id pear (Some 999)) eq_refl eq_refl eq_refl eq_refl)
    as (Hanswer & Hstored & Hid & Hvalues & Hothers).
  split; [reflexivity|]. split; [exact Hanswer|]. split; [exact Hstored|].
  split; [exact Hid|]. split; [exact Hvalues|].
  rewrite (Hothers 999) by discriminate. reflexivity.
Defined.

(** C3 at [GET /products?available=false]: the hat, which is available, is
    listed; the apple, which is not, is left out. *)
Lemma C3_available_is_always_true_witness :
  outcome (get_all_products (query_request [("available", "false")]) shop) =
  ok_listing [hat] /\
  db_calls (events (get_all_products (query_request [("available", "false")]) shop)) =
  [CallFindByAvailability true] /\
  store (get_all_products (query_request [("available", "false")]) shop) = shop.
Proof.
  apply (C3_available_is_always_true (query_request [("available", "false")]) shop "false");
    [reflexivity|reflexivity|reflexivity|discriminate].
Defined.

(** C4 as first stated fails at [GET /products?category=]: the parameter is
    there, no member of Category has the empty name, and yet nothing is
    raised: the request lists all products. *)
Lemma C4_empty_category_counterexample :
  args_get (query_request [("category", "")]) "name" = None /\
  args_get (query_request [("category", "")]) "category" = Some "" /\
  (forall member : NamedCategory,
     In member Category_members -> Category_name member <> str_upper "") /\
  outcome (get_all_products (query_request [("category", "")]) shop) =
  ok_listing (rows shop) /\
  ~ (exists e, outcome (get_all_products (query_request [("category", "")]) shop) =
               Raised e).
Proof.
  split; [reflexivity|]. split; [reflexivity|]. split; [|split].
  - intros [] _; discriminate.
  - reflexivity.
  - intros [e He]. discriminate He.
Qed.

(** C4 (amended) at [?category=toys], which names no member, and at
    [?category=food], which names FOOD in lower case and gets the answer of
    [?category=FoOd]. *)
Lemma C4_unknown_category_raises_witness :
  (outcome (get_all_products (query_request [("category", "toys")]) shop) =
   Raised (AttributeError "TOYS") /\
   store (get_all_products (query_request [("category", "toys")]) shop) = shop) /\
  (exists member',
     In member' Category_members /\
     Category_name member' = Category_name FOOD /\
     outcome (get_all_products (query_request [("category", "food")]) shop) =
     ok_listing (filter (has_category member') (rows shop))) /\
  outcome (get_all_products (query_request [("category", "FoOd")]) shop) =
  outcome (get_all_products (query_request [("category", "food")]) shop).
Proof.
  destruct (C4_unknown_category_raises
              (query_request [("category", "toys")]) shop "toys"
              eq_refl eq_refl ltac:(discriminate)) as (Hunknown & _ & _).
  destruct (C4_unknown_category_raises
              (query_request [("category", "food")]) shop "food"
              eq_refl eq_refl ltac:(discriminate)) as (_ & Hknown & Hcase).
  split; [|split].
  - apply Hunknown. intros [] _; discriminate.
  - apply (Hknown FOOD); [simpl; auto|reflexivity].
  - apply (Hcase (query_request [("category", "FoOd")]) "FoOd");
      [reflexivity|reflexivity|discriminate|reflexivity].
Defined.

(** C5 at four requests: a name wins over an unknown category and an
    availability; a category wins over an availability; an availability
    alone; no parameter at all. *)
Lemma C5_filter_precedence_witness :
  (outcome (get_all_products
              (query_request [("available", "1"); ("category", "toys"); ("name", "Hat")])
              shop) = ok_listing [hat] /\
   db_calls (events (get_all_products
              (query_request [("available", "1"); ("category", "toys"); ("name", "Hat")])
              shop)) = [CallFindByName "Hat"]) /\
  (outcome (get_all_products
              (query_request [("available", "1"); ("category", "food")]) shop) =
   ok_listing [apple] /\
   db_calls (events (get_all_products
              (query_request [("available", "1"); ("category", "food")]) shop)) =
   [CallFindByCategory "FOOD"]) /\
  (outcome (get_all_products (query_request [("available", "1")]) shop) =
   ok_listing [hat] /\
   db_calls (events (get_all_products (query_request [("available", "1")]) shop)) =
   [CallFindByAvailability true]) /\
  (outcome (get_all_products (query_request []) shop) = ok_listing [hat; apple] /\
   db_calls (events (get_all_products (query_request []) shop)) = [CallAll]).
Proof.
  split; [|split; [|split]].
  - destruct (C5_filter_precedence
                (query_request [("available", "1"); ("category", "toys"); ("name", "Hat")])
                shop) as (_ & Hname & _).
    apply (Hname "Hat"); [reflexivity|discriminate].
  - destruct (C5_filter_precedence
                (query_request [("available", "1"); ("category", "food")]) shop)
      as (_ & _ & Hcategory & _).
    apply (Hcategory "food"); [left; reflexivity|reflexivity|discriminate].
  - destruct (C5_filter_precedence (query_request [("available", "1")]) shop)
      as (_ & _ & _ & Havailable & _).
    apply (Havailable "1"); [left; reflexivity|left; reflexivity|reflexivity|discriminate].
  - destruct (C5_filter_precedence (query_request []) shop) as (_ & _ & _ & _ & Hall).
    apply Hall; left; reflexivity.
Defined.

Lemma shop_ids_assigned : ids_assigned shop.
Proof.
  intros product_id found Hfound. apply row_of_id in Hfound as Hid.
  apply find_some in Hfound. destruct Hfound as [[<-|[<-|[]]] _];
    injection Hid as <-; reflexivity.
Qed.

(** C6 at [DELETE /products/1], which exists, followed at once or after a
    POST and a PUT by [GET /products/1]; and at [DELETE /products/7], which
    does not exist. *)
Lemma C6_delete_then_get_is_404_witness :
  (outcome (delete_product 1 shop) = Returned (BodyText "", 204, []) /\
   row_of (store (delete_product 1 shop)) 1 = None /\
   (forall other, other <> 1 ->
      row_of (store (delete_product 1 shop)) other = row_of shop other) /\
   outcome (get_product 1 (store (delete_product 1 shop))) =
   Aborted 404 "Product with id [1] not found" /\
   outcome (get_product 1
              (serve_all [PostProducts (json_request pear_json);
                          PutProduct (json_request pear_json) 1]
                         (store (delete_product 1 shop)))) =
   Aborted 404 "Product with id [1] not found") /\
  (outcome (delete_product 7 shop) =
   Aborted 404 "Product with product_id [7] not found" /\
   store (delete_product 7 shop) = shop).
Proof.
  destruct (C6_delete_then_get_is_404 1 shop)
    as (Hdeleted & Hgone & Hothers & Hget & Hlater).
  split.
  - split; [exact Hdeleted|]. split; [exact Hgone|]. split; [exact Hothers|].
    split; [exact Hget|]. apply Hlater. exact shop_ids_assigned.
  - exact (C6_delete_then_get_is_404 7 shop).
Defined.

(** C7 at [GET /products/999999], which does not exist, and at
    [GET /products/2], which does. *)
Lemma C7_get_product_200_or_404_witness :
  (outcome (get_product 999999 shop) =
   Aborted 404 "Product with id [999999] not found" /\
   contains "999999" "Product with id [999999] not found") /\
  outcome (get_product 2 shop) = Returned (BodyJson (serialize apple), 200, []).
Proof.
  destruct (C7_get_product_200_or_404 999999 shop) as (_ & Hcontains & Hmissing).
  destruct (C7_get_product_200_or_404 2 shop) as (_ & _ & Hfound).
  split; [split|].
  - exact Hmissing.
  - exact Hcontains.
  - exact Hfound.
Defined.

(** C8 at a POST of [pear_json], whose made-up id 999 is replaced by the
    store's next id, 3. *)
Lemma C8_create_returns_201_and_placeholder_location_witness :
  outcome (create_products (json_request pear_json) shop) =
  Returned (BodyJson (serialize (set_id pear (Some 3))), 201, [("Location", "/")]) /\
  store (create_products (json_request pear_json) shop) =
  mkStore [hat; apple; set_id pear (Some 3)] 4 /\
  id (set_id pear (Some 3)) = Some 3 /\
  describes pear_json (set_id pear (Some 3)).
Proof.
  apply (C8_create_returns_201_and_placeholder_location
           (json_request pear_json) shop pear_json (set_id pear (Some 999)));
    reflexivity.
Defined.

(** C9 at [GET /products?name=&category=&available=]. *)
Lemma C9_empty_parameter_is_absent_witness :
  get_all_products (query_request [("name", ""); ("category", ""); ("available", "")]) shop =
  get_all_products (query_request [("category", ""); ("available", "")]) shop /\
  outcome (get_all_products
             (query_request [("name", ""); ("category", ""); ("available", "")]) shop) =
  ok_listing [hat; apple] /\
  db_calls (events (get_all_products
             (query_request [("name", ""); ("category", ""); ("available", "")]) shop)) =
  [CallAll].
Proof.
  destruct (C9_empty_parameter_is_absent
              (query_request [("name", ""); ("category", ""); ("available", "")]) shop)
    as (Habsent & Hall).
  split.
  - apply (Habsent "name"). reflexivity.
  - apply Hall. intros key [<-|[<-|[<-|[]]]]; right; reflexivity.
Defined.

(** C10 at [PUT /products/7] with [Content-Type: text/plain], where no
    product has the id 7. *)
Lemma C10_guard_runs_before_lookup_witness :
  row_of shop 7 = None /\
  update_product (text_request pear_json) 7 shop =
  mkRun (Aborted 415 "Content-Type must be application/json") shop
        [EvLog ERROR "Invalid Content-Type: %s" [JStr "text/plain"]] /\
  db_calls (events (update_product (text_request pear_json) 7 shop)) = [] /\
  outcome (update_product (text_request pear_json) 7 shop) <>
  Aborted 404 (not_found 7).
Proof.
  destruct (C10_guard_runs_before_lookup (text_request pear_json) 7 shop
              ltac:(discriminate)) as (Hrun & Hcalls & Hnot404).
  split; [reflexivity|]. split; [exact Hrun|]. split; [exact Hcalls|].
  apply Hnot404. reflexivity.
Defined.

(* ================================================================== *)
(** * The further properties at work on the sample shop *)
(* ================================================================== *)

Lemma shop_well_formed : well_formed shop.
Proof.
  split.
  - repeat constructor; simpl; intuition discriminate.
  - repeat constructor; [exists 1|exists 2]; split; reflexivity || lia.
Qed.

(** X1 at a request whose Content-Type carries a charset parameter, which
    is not the exact string, and at one that has the exact string. *)
Lemma X1_check_content_type_is_exact_witness :
  (outcome (check_content_type
              (mkRequest [("Content-Type", "application/json; charset=utf-8")] [] None)
              "application/json" shop) =
   Aborted 415 "Content-Type must be application/json" /\
   exists format args,
     events (check_content_type
               (mkRequest [("Content-Type", "application/json; charset=utf-8")] [] None)
               "application/json" shop) = [EvLog ERROR format args]) /\
  events (check_content_type (json_request pear_json) "application/json" shop) = [].
Proof.
  destruct (X1_check_content_type_is_exact
              (mkRequest [("Content-Type", "application/json; charset=utf-8")] [] None)
              "application/json" shop) as (_ & _ & _ & Hrejects).
  destruct (X1_check_content_type_is_exact (json_request pear_json) "application/json" shop)
    as (_ & _ & Haccepts & _).
  split.
  - apply Hrejects. discriminate.
  - apply Haccepts. reflexivity.
Defined.

(** X3 at [?category=toys], which ends before any data-access call. *)
Lemma X3_listing_skips_the_store_only_on_unknown_category_witness :
  db_calls (events (get_all_products (query_request [("category", "toys")]) shop)) = [] /\
  exists a,
    outcome (get_all_products (query_request [("category", "toys")]) shop) =
    Raised (AttributeError a) /\
    store (get_all_products (query_request [("category", "toys")]) shop) = shop.
Proof.
  destruct (X3_listing_skips_the_store_only_on_unknown_category
              (query_request [("category", "toys")]) shop) as (Hiff & Hraises).
  assert (Hcalls : db_calls (events (get_all_products
                                       (query_request [("category", "toys")]) shop)) = []).
  { apply Hiff. split; [left; reflexivity|].
    exists "toys". split; [reflexivity|]. split; [discriminate|].
    intros [] _; discriminate. }
  split; [exact Hcalls|]. exact (Hraises Hcalls).
Defined.

(** X4 at [?category=food], which queries for FOOD. *)
Lemma X4_category_query_is_for_the_upper_cased_parameter_witness :
  In (CallFindByCategory "FOOD")
     (db_calls (events (get_all_products (query_request [("category", "food")]) shop))) /\
  (args_get (query_request [("category", "food")]) "name" = None \/
   args_get (query_request [("category", "food")]) "name" = Some "") /\
  exists c,
    args_get (query_request [("category", "food")]) "category" = Some c /\
    c <> "" /\ "FOOD" = str_upper c.
Proof.
  assert (Hin : In (CallFindByCategory "FOOD")
                   (db_calls (events (get_all_products
                                        (query_request [("category", "food")]) shop))))
    by (left; reflexivity).
  split; [exact Hin|].
  exact (X4_category_query_is_for_the_upper_cased_parameter
           (query_request [("category", "food")]) shop "FOOD" Hin).
Defined.

(** X6 at [PUT /products/7] with JSON content type and a body that is not
    JSON. *)
Lemma X6_put_to_absent_id_is_404_whatever_the_body_witness :
  outcome (update_product (mkRequest [("Content-Type", "application/json")] [] None) 7 shop) =
  Aborted 404 "Product with id [7] not found" /\
  store (update_product (mkRequest [("Content-Type", "application/json")] [] None) 7 shop) =
  shop /\
  events (update_product (mkRequest [("Content-Type", "application/json")] [] None) 7 shop) =
  [EvDb (CallFind 7)] /\
  ~ In EvGetJson
       (events (update_product (mkRequest [("Content-Type", "application/json")] [] None)
                               7 shop)).
Proof.
  apply (X6_put_to_absent_id_is_404_whatever_the_body
           (mkRequest [("Content-Type", "application/json")] [] None) 7 shop);
    reflexivity.
Defined.

(** X7 at [PUT /products/2] with the pear: still two rows, next id 3, and
    the hat as it was. *)
Lemma X7_put_keeps_the_shape_of_the_table_witness :
  List.length (rows (store (update_product (json_request pear_json) 2 shop))) = 2%nat /\
  next_id (store (update_product (json_request pear_json) 2 shop)) = 3 /\
  row_of (store (update_product (json_request pear_json) 2 shop)) 1 = Some hat.
Proof.
  destruct (X7_put_keeps_the_shape_of_the_table (json_request pear_json) 2 shop)
    as (Hlength & Hnext & Hothers).
  split; [exact Hlength|]. split; [exact Hnext|].
  apply (Hothers 1). discriminate.
Defined.

(** X9 at [PUT /products/2] with the pear, then [GET /products/2]. *)
Lemma X9_get_after_put_returns_the_same_document_witness :
  outcome (get_product 2 (store (update_product (json_request pear_json) 2 shop))) =
  Returned (BodyJson (serialize (set_id pear (Some 2))), 200, []).
Proof.
  apply (X9_get_after_put_returns_the_same_document (json_request pear_json) 2 shop).
  reflexivity.
Defined.

(** X11 at a POST of the pear, then [GET /products/3]. *)
Lemma X11_get_after_post_returns_the_created_document_witness :
  outcome (get_product 3 (store (create_products (json_request pear_json) shop))) =
  Returned (BodyJson (serialize (set_id pear (Some 3))), 200, []).
Proof.
  apply (X11_get_after_post_returns_the_created_document
           (json_request pear_json) shop
           (BodyJson (serialize (set_id pear (Some 3)))) 201 [("Location", "/")]).
  - exact shop_ids_assigned.
  - reflexivity.
Defined.

(** X12 at a POST of the pear, then [DELETE /products/3]. *)
Lemma X12_delete_after_post_restores_the_rows_witness :
  outcome (delete_product 3 (store (create_products (json_request pear_json) shop))) =
  Returned (BodyText "", 204, []) /\
  rows (store (delete_product 3 (store (create_products (json_request pear_json) shop)))) =
  [hat; apple] /\
  next_id (store (delete_product 3 (store (create_products (json_request pear_json) shop)))) =
  4.
Proof.
  apply (X12_delete_after_post_restores_the_rows
           (json_request pear_json) shop
           (BodyJson (serialize (set_id pear (Some 3))), 201, [("Location", "/")])).
  - exact shop_ids_assigned.
  - reflexivity.
Defined.

(** X14 at [DELETE /products/1] on the sample shop: one row is left. *)
Lemma X14_delete_removes_exactly_one_row_witness :
  next_id (store (delete_product 1 shop)) = 3 /\
  outcome (delete_product 1 shop) = Returned (BodyText "", 204, []) /\
  S (List.length (rows (store (delete_product 1 shop)))) = 2%nat.
Proof.
  exact (X14_delete_removes_exactly_one_row 1 shop shop_well_formed).
Defined.

(** X5 at a POST of the pear, which returns, and at a POST of [{}], which
    does not deserialize. *)
Lemma X5_post_writes_only_on_its_way_to_201_witness :
  (exists product,
     (BodyJson (serialize (set_id pear (Some 3))), 201, [("Location", "/")]) =
     (BodyJson (serialize product), 201, [("Location", "/")]) /\
     id product = Some (next_id shop) /\
     store (create_products (json_request pear_json) shop) =
     mkStore (rows shop ++ [product]) (next_id shop + 1) /\
     db_calls (events (create_products (json_request pear_json) shop)) = [CallCreate]) /\
  ((forall response,
      outcome (create_products (json_request (JDict [])) shop) <> Returned response) /\
   store (create_products (json_request (JDict [])) shop) = shop /\
   db_calls (events (create_products (json_request (JDict [])) shop)) = []).
Proof.
  destruct (X5_post_writes_only_on_its_way_to_201 (json_request pear_json) shop)
    as (Hreturned & _).
  destruct (X5_post_writes_only_on_its_way_to_201 (json_request (JDict [])) shop)
    as (_ & Hstopped).
  split.
  - apply Hreturned. reflexivity.
  - apply Hstopped. right. right. exists (JDict []), DataValidationError.
    split; reflexivity.
Defined.
